(** * Construction space engine of the NERV geometry API

    A shallow embedding of
    - [app/services/rust_bridge.py]  (the computation bridge),
    - [app/api/v1/endpoints/construction.py]  (validator and sequence executor),
    - [app/api/v1/endpoints/collection.py]  (pattern predicates),
    followed by theorems about the embedded functions.

    Python objects are mutable and passed by reference, so a construction
    space lives in a store and the operations receive and return references
    to it.  Exceptions, the draws of [uuid.uuid4()] and the requests sent to
    the external engine are threaded through a small state-and-error monad. *)

From Stdlib Require Import PrimFloat.
From stdpp Require Import gmap strings list fin_maps pretty.

Open Scope string_scope.
Open Scope list_scope.

(** ** Geometric object model ([rust_bridge.py], lines 25-58) *)

Record Point := mkPoint {
  p_id : string;
  p_x : float;
  p_y : float;
  p_label : option string;
  is_constructed : bool;
  p_dependencies : list string
}.

Record Line := mkLine {
  l_id : string;
  point1_id : string;
  point2_id : string;
  l_label : option string;
  l_dependencies : list string
}.

Record Circle := mkCircle {
  c_id : string;
  center_id : string;
  radius_point_id : string;
  c_label : option string;
  c_dependencies : list string
}.

(** [history] is a [List[Dict[str, Any]]]; its entries are kept as maps from
    field name to a printed value.  No function of the bridge or of the
    construction endpoints writes to it. *)
Record ConstructionSpace := mkSpace {
  points : gmap string Point;
  lines : gmap string Line;
  circles : gmap string Circle;
  history : list (gmap string string)
}.

(** [ConstructionSpace()] : every field takes its default. *)
Definition empty_space : ConstructionSpace :=
  {| points := ∅; lines := ∅; circles := ∅; history := [] |}.

(** [key in d] for a Python dict. *)
Definition has_key {V} (k : string) (d : gmap string V) : bool :=
  bool_decide (is_Some (d !! k)).

(** ** Steps ([construction.py], lines 18-37) *)

(** The metadata bag, restricted to the three keys the executor reads
    ([x], [y], [label]), each already of the type [Point] expects: an
    absent key is [None].  A bag holding a value of another type under one
    of these keys (on which [Point], [Line] or [Circle] would raise a
    pydantic error, in fallback mode after the identifier was drawn) is not
    represented. *)
Record Metadata := mkMetadata {
  m_x : option float;
  m_y : option float;
  m_label : option string
}.

Definition no_metadata : Metadata :=
  {| m_x := None; m_y := None; m_label := None |}.

Record ConstructionStep := mkStep {
  step_number : Z;
  step_type : string;
  description : string;
  dependencies : list string;
  created_objects : list string;
  metadata : Metadata
}.

Record ConstructionSequence := mkSequence {
  name : string;
  seq_description : string;
  steps : list ConstructionStep;
  target_theorem : option string
}.

(** The dict [step_data] the endpoints build for the validator. *)
Record StepData := mkStepData {
  sd_step_type : string;
  sd_dependencies : list string;
  sd_metadata : Metadata
}.

(** ** Exceptions ([core/exceptions.py]) *)

Inductive exn :=
| GeometryEngineError (message : string)
| ConstructionValidationError (message : string)
| HTTPException (status_code : nat) (detail : string)
| KeyError (key : string).

(** [str(e)]: the NERV exceptions prefix their message; an HTTP exception
    prints its status before its detail. *)
Definition str_exn (e : exn) : string :=
  match e with
  | GeometryEngineError m => "Geometry engine error: " +:+ m
  | ConstructionValidationError m => "Construction validation failed: " +:+ m
  | HTTPException c d => pretty c +:+ ": " +:+ d
  | KeyError k => "'" +:+ k +:+ "'"
  end.

(** ** The wire protocol of the external engine *)

Inductive RustCommand :=
| health_check_cmd
| create_construction_space_cmd
| add_point_cmd (construction_space : ConstructionSpace) (x y : float)
    (label : option string)
| construct_line_cmd (construction_space : ConstructionSpace)
    (point1 point2 : string) (label : option string)
| construct_circle_cmd (construction_space : ConstructionSpace)
    (center radius_point : string) (label : option string)
| find_intersections_cmd (construction_space : ConstructionSpace)
    (obj1_id obj2_id : string)
| validate_construction_cmd (construction_space : ConstructionSpace)
    (step : StepData).

(** The decoded JSON object of a response, restricted to the keys the
    bridge reads, each with a value of the expected shape: [None] is an
    absent key.  An identifier that is not a string, or a verdict that is
    not a boolean, which the bridge would hand on as it is, is not
    represented. *)
Record RustResult := mkResult {
  r_status : option string;
  r_construction_space : option ConstructionSpace;
  r_point_id : option string;
  r_line_id : option string;
  r_circle_id : option string;
  r_intersections : option (list Point);
  r_is_valid : option bool
}.

(** The service object.  [rust_binary_path] is what [_find_rust_binary]
    returned when the service was built: [None] is fallback mode.
    [subprocess n c] is what the engine binary answers to request [c] when
    [n] requests were sent before it; [None] stands for a non-zero exit
    status, an empty answer or an answer that is not JSON. *)
Record RustGeometryService := mkService {
  rust_binary_path : option string;
  subprocess : nat -> RustCommand -> option RustResult
}.

(** ** Program state *)

Definition loc := positive.

Record World := mkWorld {
  heap : gmap loc ConstructionSpace;   (* the space objects *)
  drawn : nat;                         (* calls of uuid.uuid4() so far *)
  sent : list RustCommand              (* requests sent to the engine *)
}.

Definition M (A : Type) : Type := World -> (exn + A) * World.

Definition ret {A} (a : A) : M A := fun w => (inr a, w).
Definition raise {A} (e : exn) : M A := fun w => (inl e, w).
Definition bind {A B} (m : M A) (k : A -> M B) : M B :=
  fun w => match m w with
           | (inr a, w') => k a w'
           | (inl e, w') => (inl e, w')
           end.
(** [try: m except Exception as e: h e] *)
Definition try_except {A} (m : M A) (h : exn -> M A) : M A :=
  fun w => match m w with
           | (inr a, w') => (inr a, w')
           | (inl e, w') => h e w'
           end.

Declare Scope py_scope.
Delimit Scope py_scope with py.
Notation "'let!' x ':=' m 'in' k" := (bind m (fun x => k))
  (at level 10, x pattern, m at level 100, k at level 200) : py_scope.
Open Scope py_scope.

(** Reading the object behind a reference. *)
Definition deref (l : loc) : M ConstructionSpace :=
  fun w => (inr (default empty_space (heap w !! l)), w).

(** In-place update of the object behind a reference. *)
Definition mutate (l : loc) (f : ConstructionSpace -> ConstructionSpace) : M unit :=
  fun w => (inr tt, {| heap := alter f l (heap w); drawn := drawn w; sent := sent w |}).

(** A new object, as built by the [ConstructionSpace] constructor or by
    a deep copy. *)
Definition new_space (s : ConstructionSpace) : M loc :=
  fun w => let l := fresh (dom (heap w)) in
           (inr l, {| heap := <[l := s]> (heap w); drawn := drawn w; sent := sent w |}).

(** [result[key]] on the decoded answer. *)
Definition item {A} (key : string) (field : option A) : M A :=
  match field with
  | Some a => ret a
  | None => raise (KeyError key)
  end.

(** Field updates [construction_space.points[k] = v] and the like. *)
Definition store_point (k : string) (v : Point) (s : ConstructionSpace) :=
  {| points := <[k := v]> (points s); lines := lines s;
     circles := circles s; history := history s |}.
Definition store_line (k : string) (v : Line) (s : ConstructionSpace) :=
  {| points := points s; lines := <[k := v]> (lines s);
     circles := circles s; history := history s |}.
Definition store_circle (k : string) (v : Circle) (s : ConstructionSpace) :=
  {| points := points s; lines := lines s;
     circles := <[k := v]> (circles s); history := history s |}.

(** ** The computation bridge ([rust_bridge.py], class [RustGeometryService]) *)

Section Bridge.

(** The values successive calls of [uuid.uuid4()] return, as strings. *)
Variable uuid4 : nat -> string.

Definition uuid4_str : M string :=
  fun w => (inr (uuid4 (drawn w)),
            {| heap := heap w; drawn := S (drawn w); sent := sent w |}).

(** Lines 303-336.  Whatever goes wrong with the process is re-raised as a
    [GeometryEngineError]; of its message, which in the source ends with
    the cause, only the fixed beginning is kept. *)
Definition _execute_rust_command (self : RustGeometryService)
    (command : RustCommand) : M RustResult :=
  match rust_binary_path self with
  | None => raise (GeometryEngineError "Rust geometry engine not available")
  | Some _ => fun w =>
      let w' := {| heap := heap w; drawn := drawn w;
                   sent := sent w ++ [command] |} in
      match subprocess self (length (sent w)) command with
      | Some result => (inr result, w')
      | None => (inl (GeometryEngineError "Failed to execute Rust command"), w')
      end
  end.

(** Lines 92-106. *)
Definition health_check (self : RustGeometryService) : M bool :=
  match rust_binary_path self with
  | None => ret true
  | Some _ =>
      try_except
        (let! result := _execute_rust_command self health_check_cmd in
         ret (bool_decide (r_status result = Some "healthy")))
        (fun e => ret false)
  end.

(** Lines 108-120. *)
Definition create_construction_space (self : RustGeometryService) : M loc :=
  match rust_binary_path self with
  | None => new_space empty_space
  | Some _ =>
      try_except
        (let! result := _execute_rust_command self create_construction_space_cmd in
         let! d := item "construction_space" (r_construction_space result) in
         new_space d)
        (fun e => new_space empty_space)
  end.

(** Lines 122-152. *)
Definition add_point (self : RustGeometryService) (construction_space : loc)
    (x y : float) (label : option string) : M (string * loc) :=
  match rust_binary_path self with
  | None =>
      let! point_id := uuid4_str in
      let point := {| p_id := point_id; p_x := x; p_y := y; p_label := label;
                      is_constructed := false; p_dependencies := [] |} in
      let! _ := mutate construction_space (store_point point_id point) in
      ret (point_id, construction_space)
  | Some _ =>
      try_except
        (let! cs := deref construction_space in
         let! result := _execute_rust_command self (add_point_cmd cs x y label) in
         let! d := item "construction_space" (r_construction_space result) in
         let! updated_space := new_space d in
         let! point_id := item "point_id" (r_point_id result) in
         ret (point_id, updated_space))
        (fun e => raise (GeometryEngineError ("Failed to add point: " +:+ str_exn e)))
  end.

(** Lines 154-198. *)
Definition construct_line (self : RustGeometryService) (construction_space : loc)
    (point1 point2 : string) (label : option string) : M (string * loc) :=
  let! cs := deref construction_space in
  if negb (has_key point1 (points cs)) then
    raise (GeometryEngineError ("Point not found: " +:+ point1))
  else if negb (has_key point2 (points cs)) then
    raise (GeometryEngineError ("Point not found: " +:+ point2))
  else if String.eqb point1 point2 then
    raise (GeometryEngineError "Cannot create line with identical points")
  else
  match rust_binary_path self with
  | None =>
      let! line_id := uuid4_str in
      let line := {| l_id := line_id; point1_id := point1; point2_id := point2;
                     l_label := label; l_dependencies := [point1; point2] |} in
      let! _ := mutate construction_space (store_line line_id line) in
      ret (line_id, construction_space)
  | Some _ =>
      try_except
        (let! cs := deref construction_space in
         let! result := _execute_rust_command self
                          (construct_line_cmd cs point1 point2 label) in
         let! d := item "construction_space" (r_construction_space result) in
         let! updated_space := new_space d in
         let! line_id := item "line_id" (r_line_id result) in
         ret (line_id, updated_space))
        (fun e => raise (GeometryEngineError ("Failed to construct line: " +:+ str_exn e)))
  end.

(** Lines 200-244. *)
Definition construct_circle (self : RustGeometryService) (construction_space : loc)
    (center radius_point : string) (label : option string) : M (string * loc) :=
  let! cs := deref construction_space in
  if negb (has_key center (points cs)) then
    raise (GeometryEngineError ("Point not found: " +:+ center))
  else if negb (has_key radius_point (points cs)) then
    raise (GeometryEngineError ("Point not found: " +:+ radius_point))
  else if String.eqb center radius_point then
    raise (GeometryEngineError "Center and radius point cannot be the same")
  else
  match rust_binary_path self with
  | None =>
      let! circle_id := uuid4_str in
      let circle := {| c_id := circle_id; center_id := center;
                       radius_point_id := radius_point; c_label := label;
                       c_dependencies := [center; radius_point] |} in
      let! _ := mutate construction_space (store_circle circle_id circle) in
      ret (circle_id, construction_space)
  | Some _ =>
      try_except
        (let! cs := deref construction_space in
         let! result := _execute_rust_command self
                          (construct_circle_cmd cs center radius_point label) in
         let! d := item "construction_space" (r_construction_space result) in
         let! updated_space := new_space d in
         let! circle_id := item "circle_id" (r_circle_id result) in
         ret (circle_id, updated_space))
        (fun e => raise (GeometryEngineError ("Failed to construct circle: " +:+ str_exn e)))
  end.

(** Lines 246-271. *)
Definition find_intersections (self : RustGeometryService) (construction_space : loc)
    (obj1_id obj2_id : string) : M (list Point * loc) :=
  match rust_binary_path self with
  | None => ret ([], construction_space)
  | Some _ =>
      try_except
        (let! cs := deref construction_space in
         let! result := _execute_rust_command self
                          (find_intersections_cmd cs obj1_id obj2_id) in
         let! intersections := item "intersections" (r_intersections result) in
         let! d := item "construction_space" (r_construction_space result) in
         let! updated_space := new_space d in
         ret (intersections, updated_space))
        (fun e => raise (GeometryEngineError ("Failed to find intersections: " +:+ str_exn e)))
  end.

(** Lines 282-289: the verdict of the fallback validator on a snapshot. *)
Definition basic_validation (cs : ConstructionSpace) (step : StepData) : bool :=
  if String.eqb (sd_step_type step) "add_point" then true
  else if String.eqb (sd_step_type step) "construct_line"
          || String.eqb (sd_step_type step) "construct_circle" then
    forallb (fun dep => has_key dep (points cs)) (sd_dependencies step)
  else true.

(** Lines 273-301. *)
Definition validate_construction (self : RustGeometryService)
    (construction_space : loc) (step : StepData) : M bool :=
  match rust_binary_path self with
  | None =>
      let! cs := deref construction_space in
      ret (basic_validation cs step)
  | Some _ =>
      try_except
        (let! cs := deref construction_space in
         let! result := _execute_rust_command self
                          (validate_construction_cmd cs step) in
         item "is_valid" (r_is_valid result))
        (fun e => raise (GeometryEngineError ("Failed to validate construction: " +:+ str_exn e)))
  end.

End Bridge.

(** ** Validator and sequence executor ([construction.py]) *)

Definition step_data_of (step : ConstructionStep) : StepData :=
  {| sd_step_type := step_type step;
     sd_dependencies := dependencies step;
     sd_metadata := metadata step |}.

(** Lines 338-362. *)
Definition _get_validation_suggestions (step : ConstructionStep)
    (construction_space : ConstructionSpace) : list string :=
  let missing :=
    flat_map
      (fun dep_id =>
         if negb (has_key dep_id (points construction_space))
            && negb (has_key dep_id (lines construction_space))
            && negb (has_key dep_id (circles construction_space))
         then ["Required object '" +:+ dep_id
               +:+ "' does not exist in construction space"]
         else [])
      (dependencies step) in
  let specific :=
    if String.eqb (step_type step) "construct_line" then
      match dependencies step with
      | [d0; d1] =>
          if String.eqb d0 d1
          then ["Cannot construct line with identical points"] else []
      | _ => ["Line construction requires exactly 2 point dependencies"]
      end
    else if String.eqb (step_type step) "construct_circle" then
      match dependencies step with
      | [d0; d1] =>
          if String.eqb d0 d1
          then ["Center and radius point cannot be the same"] else []
      | _ => ["Circle construction requires exactly 2 point dependencies (center and radius point)"]
      end
    else [] in
  missing ++ specific.

(** The body of the answer of [/validate-step]. *)
Record StepValidation := mkStepValidation {
  is_valid : bool;
  v_step : ConstructionStep;
  validation_message : string;
  suggestions : list string
}.

(** One entry of [validation_results]; the key [suggestions] is only set
    for an invalid step. *)
Record ValidationResult := mkValidationResult {
  vr_step_number : nat;
  vr_step : ConstructionStep;
  vr_is_valid : bool;
  vr_validation_message : string;
  vr_suggestions : option (list string)
}.

Record ValidationSummary := mkValidationSummary {
  vs_total_steps : nat;
  valid_steps : nat;
  invalid_steps : nat
}.

Record SequenceValidation := mkSequenceValidation {
  sv_sequence : ConstructionSequence;
  overall_valid : bool;
  validation_results : list ValidationResult;
  sv_summary : ValidationSummary
}.

(** The dict a step execution returns: [created_id] or [intersections],
    [updated_space] and [type]. *)
Record StepOutcome := mkStepOutcome {
  created_id : option string;
  intersections : option (list Point);
  updated_space : loc;
  type : string
}.

(** One entry of [execution_results]. *)
Record ExecutionResult := mkExecutionResult {
  er_step_number : nat;
  er_step : ConstructionStep;
  success : bool;
  result : option StepOutcome;
  error : option string;
  message : string
}.

Record ExecutionSummary := mkExecutionSummary {
  es_total_steps : nat;
  successful_steps : nat;
  failed_steps : nat;
  overall_success : bool
}.

Record SequenceExecution := mkSequenceExecution {
  se_sequence : ConstructionSequence;
  final_construction_space : loc;
  execution_results : list ExecutionResult;
  se_summary : ExecutionSummary
}.

Definition validity_message (b : bool) : string :=
  if b then "Step is valid" else "Step is invalid".

(** [sum(1 for r in rs if p r)] *)
Definition count {A} (p : A -> bool) (rs : list A) : nat :=
  length (filter (fun r => p r = true) rs).

Section Endpoints.

Variable uuid4 : nat -> string.

(** Lines 48-85. *)
Definition validate_construction_step (construction_space : loc)
    (step : ConstructionStep) (rust_service : RustGeometryService)
    : M StepValidation :=
  try_except
    (let! is_valid := validate_construction rust_service construction_space
                        (step_data_of step) in
     let! cs := deref construction_space in
     ret {| is_valid := is_valid;
            v_step := step;
            validation_message := validity_message is_valid;
            suggestions := if is_valid then []
                           else _get_validation_suggestions step cs |})
    (fun e => raise (HTTPException 422 ("Validation failed: " +:+ str_exn e))).

(** The [for] loop of lines 102-129; [i] is the index [enumerate] gives to
    the first remaining step. *)
Fixpoint validate_loop (rust_service : RustGeometryService) (current_space : loc)
    (i : nat) (todo : list ConstructionStep)
    (validation_results : list ValidationResult) : M (list ValidationResult) :=
  match todo with
  | [] => ret validation_results
  | step :: todo' =>
      let! is_valid := validate_construction rust_service current_space
                         (step_data_of step) in
      let! cs := deref current_space in
      let validation_result :=
        {| vr_step_number := i + 1;
           vr_step := step;
           vr_is_valid := is_valid;
           vr_validation_message := validity_message is_valid;
           vr_suggestions :=
             if is_valid then None
             else Some (_get_validation_suggestions step cs) |} in
      let validation_results := validation_results ++ [validation_result] in
      if is_valid
      then validate_loop rust_service current_space (S i) todo' validation_results
      else ret validation_results
  end.

(** Lines 92-157. *)
Definition validate_construction_sequence (sequence : ConstructionSequence)
    (initial_construction_space : loc) (rust_service : RustGeometryService)
    : M SequenceValidation :=
  try_except
    (let! initial := deref initial_construction_space in
     let! current_space := new_space initial in
     let! validation_results :=
       validate_loop rust_service current_space 0 (steps sequence) [] in
     ret {| sv_sequence := sequence;
            overall_valid := forallb vr_is_valid validation_results;
            validation_results := validation_results;
            sv_summary :=
              {| vs_total_steps := length (steps sequence);
                 valid_steps := count vr_is_valid validation_results;
                 invalid_steps :=
                   count (fun r => negb (vr_is_valid r)) validation_results |} |})
    (fun e => raise (HTTPException 422 ("Sequence validation failed: " +:+ str_exn e))).

(** Lines 364-438. *)
Definition _execute_construction_step (step : ConstructionStep)
    (construction_space : loc) (rust_service : RustGeometryService)
    : M StepOutcome :=
  if String.eqb (step_type step) "add_point" then
    let x := default 0%float (m_x (metadata step)) in
    let y := default 0%float (m_y (metadata step)) in
    let label := m_label (metadata step) in
    let! (point_id, updated_space) :=
      add_point uuid4 rust_service construction_space x y label in
    ret {| created_id := Some point_id; intersections := None;
           updated_space := updated_space; type := "point" |}
  else if String.eqb (step_type step) "construct_line" then
    match dependencies step with
    | [d0; d1] =>
        let! (line_id, updated_space) :=
          construct_line uuid4 rust_service construction_space d0 d1
            (m_label (metadata step)) in
        ret {| created_id := Some line_id; intersections := None;
               updated_space := updated_space; type := "line" |}
    | _ => raise (ConstructionValidationError "Line requires exactly 2 points")
    end
  else if String.eqb (step_type step) "construct_circle" then
    match dependencies step with
    | [d0; d1] =>
        let! (circle_id, updated_space) :=
          construct_circle uuid4 rust_service construction_space d0 d1
            (m_label (metadata step)) in
        ret {| created_id := Some circle_id; intersections := None;
               updated_space := updated_space; type := "circle" |}
    | _ => raise (ConstructionValidationError "Circle requires exactly 2 points")
    end
  else if String.eqb (step_type step) "find_intersections" then
    match dependencies step with
    | [d0; d1] =>
        let! (found, updated_space) :=
          find_intersections rust_service construction_space d0 d1 in
        ret {| created_id := None; intersections := Some found;
               updated_space := updated_space; type := "intersections" |}
    | _ => raise (ConstructionValidationError
                    "Intersection requires exactly 2 geometric objects")
    end
  else
    raise (ConstructionValidationError ("Unknown step type: " +:+ step_type step)).

(** The [for] loop of lines 174-199.  It returns the space the loop ends
    with and the results recorded. *)
Fixpoint execute_loop (rust_service : RustGeometryService) (current_space : loc)
    (i : nat) (todo : list ConstructionStep)
    (execution_results : list ExecutionResult)
    : M (loc * list ExecutionResult) :=
  match todo with
  | [] => ret (current_space, execution_results)
  | step :: todo' =>
      fun w =>
        match _execute_construction_step step current_space rust_service w with
        | (inr result, w') =>
            execute_loop rust_service (updated_space result) (S i) todo'
              (execution_results ++
                 [{| er_step_number := i + 1;
                     er_step := step;
                     success := true;
                     result := Some result;
                     error := None;
                     message := "Step " +:+ pretty (i + 1)
                                +:+ " executed successfully" |}]) w'
        | (inl step_error, w') =>
            (inr (current_space,
                  execution_results ++
                    [{| er_step_number := i + 1;
                        er_step := step;
                        success := false;
                        result := None;
                        error := Some (str_exn step_error);
                        message := "Step " +:+ pretty (i + 1) +:+ " failed: "
                                   +:+ str_exn step_error |}]), w')
        end
  end.

(** Lines 164-228. *)
Definition execute_construction_sequence (sequence : ConstructionSequence)
    (initial_construction_space : loc) (rust_service : RustGeometryService)
    : M SequenceExecution :=
  try_except
    (let! initial := deref initial_construction_space in
     let! current_space := new_space initial in
     let! (current_space, execution_results) :=
       execute_loop rust_service current_space 0 (steps sequence) [] in
     let success_count := count success execution_results in
     ret {| se_sequence := sequence;
            final_construction_space := current_space;
            execution_results := execution_results;
            se_summary :=
              {| es_total_steps := length (steps sequence);
                 successful_steps := success_count;
                 failed_steps := length execution_results - success_count;
                 overall_success :=
                   bool_decide (success_count = length (steps sequence)) |} |})
    (fun e => raise (HTTPException 500 ("Sequence execution failed: " +:+ str_exn e))).

End Endpoints.

(** ** Pattern predicates of the collection layer ([collection.py]) *)

(** The fields of [CollectionElement] the predicates read. *)
Record CollectionElement := mkElement {
  e_id : string;
  e_name : string;
  rarity : string;
  unlock_requirements : list string
}.

(** The [equilateral_triangle] entry of [COLLECTION_ELEMENTS]. *)
Definition equilateral_triangle : CollectionElement :=
  {| e_id := "equilateral_triangle";
     e_name := "Equilateral Triangle";
     rarity := "uncommon";
     unlock_requirements := ["line_segment"; "circle"] |}.

(** Lines 412-429. *)
Definition _can_unlock_element (element : CollectionElement)
    (construction_space : ConstructionSpace) : bool :=
  match unlock_requirements element with
  | [] => true
  | _ =>
    if String.eqb (e_id element) "line_segment" then
      (0 <? size (lines construction_space))%nat
    else if String.eqb (e_id element) "circle" then
      (0 <? size (circles construction_space))%nat
    else if String.eqb (e_id element) "equilateral_triangle" then
      (3 <=? size (lines construction_space))%nat
      && (2 <=? size (circles construction_space))%nat
    else if String.eqb (e_id element) "perpendicular_bisector" then
      (2 <=? size (lines construction_space))%nat
      && (2 <=? size (circles construction_space))%nat
    else false
  end.

Record Analysis := mkAnalysis {
  point_count : nat;
  line_count : nat;
  circle_count : nat;
  construction_steps : nat;
  identified_patterns : list string
}.

(** Lines 431-461.  The service argument is not used by the body. *)
Definition _analyze_construction (construction_space : ConstructionSpace) : Analysis :=
  let point_count := size (points construction_space) in
  let line_count := size (lines construction_space) in
  let circle_count := size (circles construction_space) in
  {| point_count := point_count;
     line_count := line_count;
     circle_count := circle_count;
     construction_steps := length (history construction_space);
     identified_patterns :=
       (if (line_count =? 3)%nat && (2 <=? circle_count)%nat
           && (3 <=? point_count)%nat
        then ["equilateral_triangle"] else [])
       ++ (if (2 <=? line_count)%nat && (2 <=? circle_count)%nat
           then ["perpendicular_bisector"] else [])
       ++ (if (1 <=? circle_count)%nat then ["circle"] else [])
       ++ (if (1 <=? line_count)%nat then ["line_segment"] else []) |}.

(** [name in analysis["identified_patterns"]] *)
Definition pattern_identified (name : string) (a : Analysis) : bool :=
  bool_decide (name ∈ identified_patterns a).

(** ** The geometry endpoints ([geometry.py]) *)

Module GeometryApi.

Record PointCreate := mkPointCreate {
  pc_x : float;
  pc_y : float;
  pc_label : option string
}.

Record LineCreate := mkLineCreate {
  lc_point1_id : string;
  lc_point2_id : string;
  lc_label : option string
}.

Record CircleCreate := mkCircleCreate {
  cc_center_id : string;
  cc_radius_point_id : string;
  cc_label : option string
}.

Record IntersectionRequest := mkIntersectionRequest {
  obj1_id : string;
  obj2_id : string
}.

(** [data] is the dict with the single key [engine_available]. *)
Record GeometryResponse := mkGeometryResponse {
  g_success : bool;
  g_message : string;
  engine_available : bool
}.

Record ConstructionSpaceResponse := mkConstructionSpaceResponse {
  cr_construction_space : loc;
  cr_operation : string;
  cr_created_id : option string
}.

Record IntersectionsResponse := mkIntersectionsResponse {
  ir_construction_space : loc;
  ir_intersections : list Point;
  intersection_count : nat;
  ir_operation : string
}.

(** The two [except] clauses every operation endpoint ends with.  The
    response is built from the object the bridge returned. *)
Definition http_errors {A} (what : string) (m : M A) : M A :=
  try_except m
    (fun e =>
       match e with
       | GeometryEngineError _ => raise (HTTPException 422 (str_exn e))
       | _ => raise (HTTPException 500 (what +:+ str_exn e))
       end).

Section Endpoints.

Variable uuid4 : nat -> string.

(** Lines 69-85. *)
Definition geometry_health_check (rust_service : RustGeometryService)
    : M GeometryResponse :=
  try_except
    (let! is_healthy := health_check rust_service in
     ret {| g_success := is_healthy;
            g_message := if is_healthy then "Geometry engine is healthy"
                         else "Geometry engine is unhealthy";
            engine_available := is_healthy |})
    (fun e => raise (HTTPException 503
                       ("Geometry engine health check failed: " +:+ str_exn e))).

(** Lines 93-111. *)
Definition create_construction_space (rust_service : RustGeometryService)
    : M ConstructionSpaceResponse :=
  try_except
    (let! construction_space :=
       create_construction_space rust_service in
     ret {| cr_construction_space := construction_space;
            cr_operation := "create_construction_space";
            cr_created_id := None |})
    (fun e => raise (HTTPException 500
                       ("Failed to create construction space: " +:+ str_exn e))).

(** Lines 119-154. *)
Definition add_point (point_data : PointCreate) (construction_space_data : loc)
    (rust_service : RustGeometryService) : M ConstructionSpaceResponse :=
  http_errors "Failed to add point: "
    (let! (point_id, updated_space) :=
       add_point uuid4 rust_service construction_space_data
         (pc_x point_data) (pc_y point_data) (pc_label point_data) in
     ret {| cr_construction_space := updated_space;
            cr_operation := "add_point";
            cr_created_id := Some point_id |}).

(** Lines 164-199. *)
Definition construct_line (line_data : LineCreate) (construction_space_data : loc)
    (rust_service : RustGeometryService) : M ConstructionSpaceResponse :=
  http_errors "Failed to construct line: "
    (let! (line_id, updated_space) :=
       construct_line uuid4 rust_service construction_space_data
         (lc_point1_id line_data) (lc_point2_id line_data) (lc_label line_data) in
     ret {| cr_construction_space := updated_space;
            cr_operation := "construct_line";
            cr_created_id := Some line_id |}).

(** Lines 209-244. *)
Definition construct_circle (circle_data : CircleCreate)
    (construction_space_data : loc) (rust_service : RustGeometryService)
    : M ConstructionSpaceResponse :=
  http_errors "Failed to construct circle: "
    (let! (circle_id, updated_space) :=
       construct_circle uuid4 rust_service construction_space_data
         (cc_center_id circle_data) (cc_radius_point_id circle_data)
         (cc_label circle_data) in
     ret {| cr_construction_space := updated_space;
            cr_operation := "construct_circle";
            cr_created_id := Some circle_id |}).

(** Lines 254-290. *)
Definition find_intersections (intersection_data : IntersectionRequest)
    (construction_space_data : loc) (rust_service : RustGeometryService)
    : M IntersectionsResponse :=
  http_errors "Failed to find intersections: "
    (let! (found, updated_space) :=
       find_intersections rust_service construction_space_data
         (obj1_id intersection_data) (obj2_id intersection_data) in
     ret {| ir_construction_space := updated_space;
            ir_intersections := found;
            intersection_count := length found;
            ir_operation := "find_intersections" |}).

End Endpoints.

End GeometryApi.

(** ** Locating the engine binary ([rust_bridge.py], lines 64-90) *)

(** The build outputs [_find_rust_binary] looks for, in order. *)
Definition possible_paths : list string :=
  ["../rust-core/target/release/nerv-geometry";
   "../rust-core/target/debug/nerv-geometry";
   "./target/release/nerv-geometry";
   "./target/debug/nerv-geometry"].

(** [rust_lib_path] is the setting of that name, [path_exists] the file
    system as [Path.exists] sees it and [resolve] what [Path.resolve]
    returns; paths are kept as the strings they are built from.  An unset
    or empty setting is skipped. *)
Definition _find_rust_binary (rust_lib_path : option string)
    (path_exists : string -> bool) (resolve : string -> string)
    : option string :=
  let search := resolve <$> List.find path_exists possible_paths in
  match rust_lib_path with
  | Some configured =>
      if negb (String.eqb configured "") && path_exists configured
      then Some configured
      else search
  | None => search
  end.

(** [RustGeometryService()] : the constructor runs the search. *)
Definition new_service (rust_lib_path : option string)
    (path_exists : string -> bool) (resolve : string -> string)
    (engine : nat -> RustCommand -> option RustResult) : RustGeometryService :=
  {| rust_binary_path := _find_rust_binary rust_lib_path path_exists resolve;
     subprocess := engine |}.

(** ** Construction templates ([construction.py], lines 235-336) *)

(** One entry of the list of templates. *)
Record Template := mkTemplate {
  t_name : string;
  t_description : string;
  difficulty : string;
  t_theorem : string;
  t_steps : list ConstructionStep
}.

(** A step of a template: the dicts carry no [metadata]. *)
Definition template_step (n : Z) (ty desc : string) (deps created : list string)
    : ConstructionStep :=
  {| step_number := n; step_type := ty; description := desc;
     dependencies := deps; created_objects := created;
     metadata := no_metadata |}.

(** The two templates, as written in the source. *)
Definition equilateral_triangle_template : Template :=
  {| t_name := "Equilateral Triangle";
     t_description :=
       "Construct an equilateral triangle on a given line segment";
     difficulty := "beginner";
     t_theorem := "Euclid's Proposition I.1";
     t_steps :=
       [ template_step 1 "given_points" "Given two points A and B"
           [] ["point_A"; "point_B"];
         template_step 2 "construct_circle"
           "Construct circle with center A and radius AB"
           ["point_A"; "point_B"] ["circle_A"];
         template_step 3 "construct_circle"
           "Construct circle with center B and radius BA"
           ["point_A"; "point_B"] ["circle_B"];
         template_step 4 "find_intersections"
           "Find intersection of the two circles"
           ["circle_A"; "circle_B"] ["point_C"];
         template_step 5 "construct_line" "Construct line AC"
           ["point_A"; "point_C"] ["line_AC"];
         template_step 6 "construct_line" "Construct line BC"
           ["point_B"; "point_C"] ["line_BC"] ] |}.

Definition perpendicular_bisector_template : Template :=
  {| t_name := "Perpendicular Bisector";
     t_description :=
       "Construct the perpendicular bisector of a line segment";
     difficulty := "beginner";
     t_theorem := "Standard construction";
     t_steps :=
       [ template_step 1 "given_points" "Given two points A and B"
           [] ["point_A"; "point_B"];
         template_step 2 "construct_circle"
           "Construct circle with center A and radius greater than AB/2"
           ["point_A"; "point_B"] ["circle_A"];
         template_step 3 "construct_circle"
           "Construct circle with center B and same radius"
           ["point_A"; "point_B"] ["circle_B"];
         template_step 4 "find_intersections"
           "Find intersections of the two circles"
           ["circle_A"; "circle_B"] ["point_C"; "point_D"];
         template_step 5 "construct_line"
           "Construct line through the intersections"
           ["point_C"; "point_D"] ["line_CD"] ] |}.

Definition templates : list Template :=
  [equilateral_triangle_template; perpendicular_bisector_template].

(** Lines 235-336: the answer of [/templates]. *)
Definition get_construction_templates : list Template * nat :=
  (templates, length templates).

(** The sequence a client submits to run a template as it is. *)
Definition sequence_of_template (t : Template) : ConstructionSequence :=
  {| name := t_name t; seq_description := t_description t;
     steps := t_steps t; target_theorem := Some (t_theorem t) |}.

(** Every dependency of every step is created by an earlier step. *)
Fixpoint dependencies_created (known : list string)
    (todo : list ConstructionStep) : bool :=
  match todo with
  | [] => true
  | step :: todo' =>
      forallb (fun dep => bool_decide (dep ∈ known)) (dependencies step)
      && dependencies_created (known ++ created_objects step) todo'
  end.

(** ** Concrete services, spaces and worlds used in the examples *)

Definition sample_uuid4 (n : nat) : string := "uuid-" +:+ pretty n.

(** No engine binary was found: fallback mode. *)
Definition fallback_service : RustGeometryService :=
  {| rust_binary_path := None; subprocess := fun _ _ => None |}.

(** A binary that answers the health command and nothing else. *)
Definition healthy_service : RustGeometryService :=
  {| rust_binary_path := Some "./target/release/nerv-geometry";
     subprocess := fun _ c =>
       match c with
       | health_check_cmd =>
           Some {| r_status := Some "healthy"; r_construction_space := None;
                   r_point_id := None; r_line_id := None; r_circle_id := None;
                   r_intersections := None; r_is_valid := None |}
       | _ => None
       end |}.

(** A binary that is found but fails on every request. *)
Definition failing_service : RustGeometryService :=
  {| rust_binary_path := Some "./target/release/nerv-geometry";
     subprocess := fun _ _ => None |}.

Definition given_point (i : string) : Point :=
  {| p_id := i; p_x := 0%float; p_y := 0%float; p_label := None;
     is_constructed := false; p_dependencies := [] |}.

Definition line_through (i a b : string) : Line :=
  {| l_id := i; point1_id := a; point2_id := b; l_label := None;
     l_dependencies := [a; b] |}.

Definition circle_around (i a b : string) : Circle :=
  {| c_id := i; center_id := a; radius_point_id := b; c_label := None;
     c_dependencies := [a; b] |}.

(** Points [A] and [B], nothing else. *)
Definition space_AB : ConstructionSpace :=
  {| points := {[ "A" := given_point "A"; "B" := given_point "B" ]};
     lines := ∅; circles := ∅; history := [] |}.

(** Three points, four lines, two circles. *)
Definition space_four_lines : ConstructionSpace :=
  {| points := {[ "A" := given_point "A"; "B" := given_point "B";
                  "C" := given_point "C" ]};
     lines := {[ "AB" := line_through "AB" "A" "B";
                 "BC" := line_through "BC" "B" "C";
                 "CA" := line_through "CA" "C" "A";
                 "BA" := line_through "BA" "B" "A" ]};
     circles := {[ "cA" := circle_around "cA" "A" "B";
                   "cB" := circle_around "cB" "B" "A" ]};
     history := [] |}.

(** A program state whose only object is [s], held at reference [1]. *)
Definition world_with (s : ConstructionSpace) : World :=
  {| heap := {[ 1%positive := s ]}; drawn := 0; sent := [] |}.

Definition step_of (ty : string) (deps : list string) : ConstructionStep :=
  {| step_number := 1; step_type := ty; description := "";
     dependencies := deps; created_objects := []; metadata := no_metadata |}.

Definition sequence_of (l : list ConstructionStep) : ConstructionSequence :=
  {| name := "sequence"; seq_description := ""; steps := l;
     target_theorem := None |}.

(** ** Contracts stated by the theorems *)

(** The verdict [validate_construction] gives for [step] when the reference
    it receives denotes the snapshot [cs] and [n] requests were sent to the
    engine before; [None] when the call raises. *)
Definition snapshot_verdict (self : RustGeometryService) (cs : ConstructionSpace)
    (n : nat) (step : StepData) : option bool :=
  match rust_binary_path self with
  | None => Some (basic_validation cs step)
  | Some _ => subprocess self n (validate_construction_cmd cs step) ≫= r_is_valid
  end.

(** Every space object of [w] is still there, with the same content, in [w']. *)
Definition spaces_kept (w w' : World) : Prop :=
  forall l cs, heap w !! l = Some cs -> heap w' !! l = Some cs.

(** What the engine binary answers to [command] in state [w], as far as
    the delegated branches read it: the identifier under the key [id_field]
    and the updated space; [None] when the call fails or a key is missing. *)
Definition delegated_answer (self : RustGeometryService) (w : World)
    (command : RustCommand) (id_field : RustResult -> option string)
    : option (string * ConstructionSpace) :=
  result ← subprocess self (length (sent w)) command;
  d ← r_construction_space result;
  i ← id_field result;
  Some (i, d).

(** What [construct_line] and [construct_circle] (here [op], called on a
    reference to [cs] with identifiers [a] and [b], in state [w]) do about
    errors; [answer] is the engine's answer to the delegated request. *)
Definition referential_guard (op : M (string * loc)) (self : RustGeometryService)
    (cs : ConstructionSpace) (a b : string) (w : World)
    (answer : option (string * ConstructionSpace)) : Prop :=
  (* a missing or repeated identifier is refused at once: the state, and
     with it the list of requests sent to the engine, is as before *)
  (points cs !! a = None \/ points cs !! b = None \/ a = b ->
   exists msg, op w = (inl (GeometryEngineError msg), w))
  (* in fallback mode nothing else is refused *)
  /\ (rust_binary_path self = None ->
      is_Some (points cs !! a) -> is_Some (points cs !! b) -> a <> b ->
      exists r w', op w = (inr r, w'))
  (* in delegated mode the call is also refused when the engine gives no
     usable answer, and otherwise returns the engine's space *)
  /\ (is_Some (rust_binary_path self) ->
      is_Some (points cs !! a) -> is_Some (points cs !! b) -> a <> b ->
      match answer with
      | Some (i, d) =>
          exists l' w', op w = (inr (i, l'), w') /\ heap w' !! l' = Some d
      | None => exists msg w', op w = (inl (GeometryEngineError msg), w')
      end)
  (* in either mode a failure is a GeometryEngineError and no space changes *)
  /\ (forall e w', op w = (inl e, w') ->
      (exists msg, e = GeometryEngineError msg) /\ spaces_kept w w').

(** The rule of the fallback validator, read on the step itself: a
    [construct_line] or [construct_circle] step is valid when every one of
    its dependencies is a point of [cs]; any other step is valid. *)
Definition fallback_rule (cs : ConstructionSpace) (step : ConstructionStep) : Prop :=
  (step_type step = "construct_line" \/ step_type step = "construct_circle") ->
  forall dep, dep ∈ dependencies step -> is_Some (points cs !! dep).

(** What [validate_construction_sequence] answers, for a sequence validated
    in state [w] against a reference to the snapshot [cs].  The dict the
    validator is handed for a step is written out field by field. *)
Definition validation_report (sequence : ConstructionSequence)
    (self : RustGeometryService) (cs : ConstructionSpace) (w : World)
    (outcome : (exn + SequenceValidation) * World) : Prop :=
  match outcome with
  | (inr r, w') =>
      let rs := validation_results r in
      (* the results are those of the first steps, in order, numbered from 1 *)
      vr_step <$> rs = take (length rs) (steps sequence)
      /\ vr_step_number <$> rs = seq 1 (length rs)
      (* each verdict is the validator's verdict, on the initial snapshot,
         for the type, the dependencies and the metadata of that step *)
      /\ (forall j res, rs !! j = Some res ->
            snapshot_verdict self cs (length (sent w) + j)
              {| sd_step_type := step_type (vr_step res);
                 sd_dependencies := dependencies (vr_step res);
                 sd_metadata := metadata (vr_step res) |}
            = Some (vr_is_valid res))
      (* in fallback mode that verdict is the fallback rule for the step,
         read on the initial snapshot *)
      /\ (rust_binary_path self = None ->
          forall res, res ∈ rs ->
            vr_is_valid res = true <-> fallback_rule cs (vr_step res))
      (* no step is applied: no space changes, no identifier is drawn *)
      /\ spaces_kept w w' /\ drawn w' = drawn w
      (* an invalid step is the last one recorded *)
      /\ (forall j res, rs !! j = Some res -> vr_is_valid res = false ->
            length rs = S j)
      /\ (length rs = length (steps sequence)
          \/ exists res, last rs = Some res /\ vr_is_valid res = false)
      (* overall validity is the conjunction of the recorded verdicts *)
      /\ overall_valid r = forallb vr_is_valid rs
  | (inl e, w') =>
      (* only a delegated validation can fail, with status 422 *)
      is_Some (rust_binary_path self)
      /\ (exists cause,
            e = HTTPException 422
                  ("Sequence validation failed: Geometry engine error: "
                   +:+ "Failed to validate construction: " +:+ cause))
      /\ spaces_kept w w' /\ drawn w' = drawn w
      (* and it fails at the first step for which the validator raises,
         every step before it having been found valid on the snapshot *)
      /\ exists j step,
           steps sequence !! j = Some step
           /\ snapshot_verdict self cs (length (sent w) + j)
                {| sd_step_type := step_type step;
                   sd_dependencies := dependencies step;
                   sd_metadata := metadata step |} = None
           /\ forall i earlier, (i < j)%nat -> steps sequence !! i = Some earlier ->
                snapshot_verdict self cs (length (sent w) + i)
                  {| sd_step_type := step_type earlier;
                     sd_dependencies := dependencies earlier;
                     sd_metadata := metadata earlier |} = Some true
  end.

(** The operation [op], run in state [w], leaves every space of [w] as it
    was and, when it succeeds, answers with an object that did not exist
    in [w]. *)
Definition returns_new_space {A} (op : M (A * loc)) (w : World) : Prop :=
  forall r w', op w = (r, w') ->
    spaces_kept w w' /\ forall a l', r = inr (a, l') -> heap w !! l' = None.

(** How the operations treat the space [cs] a caller passes by the
    reference [l], in state [w]. *)
Definition space_passing (uuid4 : nat -> string) (self : RustGeometryService)
    (l : loc) (cs : ConstructionSpace) (w : World) : Prop :=
  (* execute-sequence works on a deep copy, in either mode *)
  (forall sequence, exists r w',
     execute_construction_sequence uuid4 sequence l self w = (inr r, w')
     /\ spaces_kept w w' /\ heap w !! final_construction_space r = None)
  (* delegated mode: the answer is deserialized into a new object *)
  /\ (is_Some (rust_binary_path self) ->
      (forall x y label, returns_new_space (add_point uuid4 self l x y label) w)
      /\ (forall a b label,
            returns_new_space (construct_line uuid4 self l a b label) w)
      /\ (forall a b label,
            returns_new_space (construct_circle uuid4 self l a b label) w)
      /\ (forall a b, returns_new_space (find_intersections self l a b) w))
  (* fallback mode: the caller's object is returned, updated in place by
     the three constructions *)
  /\ (rust_binary_path self = None ->
      let new_id := uuid4 (drawn w) in
      (forall a b, find_intersections self l a b w = (inr ([], l), w))
      /\ (forall x y label, exists w',
            add_point uuid4 self l x y label w = (inr (new_id, l), w')
            /\ heap w' !! l =
               Some (store_point new_id
                       {| p_id := new_id; p_x := x; p_y := y; p_label := label;
                          is_constructed := false; p_dependencies := [] |} cs))
      /\ (forall a b label,
            is_Some (points cs !! a) -> is_Some (points cs !! b) -> a <> b ->
            exists w',
              construct_line uuid4 self l a b label w = (inr (new_id, l), w')
              /\ heap w' !! l =
                 Some (store_line new_id
                         {| l_id := new_id; point1_id := a; point2_id := b;
                            l_label := label; l_dependencies := [a; b] |} cs))
      /\ (forall a b label,
            is_Some (points cs !! a) -> is_Some (points cs !! b) -> a <> b ->
            exists w',
              construct_circle uuid4 self l a b label w = (inr (new_id, l), w')
              /\ heap w' !! l =
                 Some (store_circle new_id
                         {| c_id := new_id; center_id := a; radius_point_id := b;
                            c_label := label; c_dependencies := [a; b] |} cs))).









(** ** More services and elements for the examples *)

(** A binary that declares every step valid and answers nothing else. *)
Definition approving_service : RustGeometryService :=
  {| rust_binary_path := Some "./target/release/nerv-geometry";
     subprocess := fun _ c =>
       match c with
       | validate_construction_cmd _ _ =>
           Some {| r_status := None; r_construction_space := None;
                   r_point_id := None; r_line_id := None; r_circle_id := None;
                   r_intersections := None; r_is_valid := Some true |}
       | _ => None
       end |}.

(** A binary that finds the step of the first request valid and answers
    every later request with an object that has no key [is_valid]. *)
Definition faltering_service : RustGeometryService :=
  {| rust_binary_path := Some "./target/release/nerv-geometry";
     subprocess := fun n _ =>
       Some {| r_status := None; r_construction_space := None;
               r_point_id := None; r_line_id := None; r_circle_id := None;
               r_intersections := None;
               r_is_valid := match n with 0 => Some true | _ => None end |} |}.

(** A binary that answers [add_point] requests by adding the point under
    the identifier [engine-point], and nothing else. *)
Definition adding_service : RustGeometryService :=
  {| rust_binary_path := Some "./target/release/nerv-geometry";
     subprocess := fun _ c =>
       match c with
       | add_point_cmd cs x y label =>
           Some {| r_status := None;
                   r_construction_space :=
                     Some (store_point "engine-point"
                             {| p_id := "engine-point"; p_x := x; p_y := y;
                                p_label := label; is_constructed := false;
                                p_dependencies := [] |} cs);
                   r_point_id := Some "engine-point"; r_line_id := None;
                   r_circle_id := None; r_intersections := None;
                   r_is_valid := None |}
       | _ => None
       end |}.

(** The [perpendicular_bisector] entry of [COLLECTION_ELEMENTS]. *)
Definition perpendicular_bisector : CollectionElement :=
  {| e_id := "perpendicular_bisector";
     e_name := "Perpendicular Bisector";
     rarity := "uncommon";
     unlock_requirements := ["line_segment"; "circle"] |}.

(** ** Contracts of the further properties *)

(** An entry of [execution_results] has one of the two shapes the loop
    builds. *)
Definition well_shaped (res : ExecutionResult) : Prop :=
  if success res
  then is_Some (result res) /\ error res = None
  else result res = None /\ is_Some (error res).

(** What [execute_construction_sequence] answers for [sequence], in either
    mode. *)
Definition halting_report (sequence : ConstructionSequence)
    (outcome : (exn + SequenceExecution) * World) : Prop :=
  match outcome with
  | (inr r, w') =>
      let rs := execution_results r in
      er_step <$> rs = take (length rs) (steps sequence)
      /\ er_step_number <$> rs = seq 1 (length rs)
      /\ Forall well_shaped rs
      /\ (forall j res, rs !! j = Some res -> success res = false ->
            length rs = S j)
      /\ (length rs = length (steps sequence)
          \/ exists res, last rs = Some res /\ success res = false)
      /\ es_total_steps (se_summary r) = length (steps sequence)
      /\ successful_steps (se_summary r) + failed_steps (se_summary r)
         = length rs
      /\ failed_steps (se_summary r) <= 1
      /\ (overall_success (se_summary r) = true
          <-> failed_steps (se_summary r) = 0
              /\ length rs = length (steps sequence))
  | (inl e, w') => False
  end.

(** The step types the executor knows. *)
Definition known_step_type (ty : string) : Prop :=
  ty = "add_point" \/ ty = "construct_line" \/ ty = "construct_circle"
  \/ ty = "find_intersections".

(** The step is refused by the executor itself, before the bridge is
    called: its type is unknown, or it is not [add_point] and does not
    have exactly two dependencies. *)
Definition malformed_step (step : ConstructionStep) : Prop :=
  ~ known_step_type (step_type step)
  \/ (step_type step <> "add_point" /\ length (dependencies step) <> 2).


(** The requests a list of validation results accounts for: one per result
    in delegated mode, each carrying the snapshot [cs] and the type, the
    dependencies and the metadata of the step; none in fallback mode. *)
Definition validation_requests (self : RustGeometryService)
    (cs : ConstructionSpace) (rs : list ValidationResult) : list RustCommand :=
  match rust_binary_path self with
  | Some _ =>
      (fun res =>
         validate_construction_cmd cs
           {| sd_step_type := step_type (vr_step res);
              sd_dependencies := dependencies (vr_step res);
              sd_metadata := metadata (vr_step res) |})
        <$> rs
  | None => []
  end.

(** [dep] names an object of [cs]: a point, a line or a circle. *)
Definition resolves (cs : ConstructionSpace) (dep : string) : Prop :=
  is_Some (points cs !! dep) \/ is_Some (lines cs !! dep)
  \/ is_Some (circles cs !! dep).

(** The message [_get_validation_suggestions] gives for a dependency that
    names nothing. *)
Definition missing_object_message (dep : string) : string :=
  "Required object '" +:+ dep +:+ "' does not exist in construction space".

(** An entry of [validation_results] carries the message of its verdict,
    and suggestions exactly when the step is invalid. *)
Definition verdict_shaped (res : ValidationResult) : Prop :=
  vr_validation_message res = validity_message (vr_is_valid res)
  /\ (vr_suggestions res = None <-> vr_is_valid res = true).

(** What the engine answers to a [find_intersections] request, as far as
    the delegated branch reads it. *)
Definition delegated_intersections (self : RustGeometryService) (w : World)
    (command : RustCommand) : option (list Point * ConstructionSpace) :=
  result ← subprocess self (length (sent w)) command;
  found ← r_intersections result;
  d ← r_construction_space result;
  Some (found, d).

(** What a delegated operation [op] does in state [w], given the request
    [command] it builds and the answer [answer] the engine gives to it. *)
Definition delegates {A} (op : M (A * loc)) (w : World)
    (command : RustCommand) (answer : option (A * ConstructionSpace)) : Prop :=
  match answer with
  | Some (a, d) =>
      exists l' w',
        op w = (inr (a, l'), w')
        /\ heap w !! l' = None /\ heap w' !! l' = Some d
        /\ spaces_kept w w'
        /\ sent w' = sent w ++ [command] /\ drawn w' = drawn w
  | None =>
      exists msg w',
        op w = (inl (GeometryEngineError msg), w')
        /\ spaces_kept w w'
        /\ sent w' = sent w ++ [command] /\ drawn w' = drawn w
  end.

(** * Properties *)

(** ** Basic facts about the state monad and dict membership *)

Lemma has_key_true {V} (k : string) (d : gmap string V) :
  has_key k d = true <-> is_Some (d !! k).
Proof. unfold has_key. apply bool_decide_eq_true. Qed.

Lemma deref_some l w s :
  heap w !! l = Some s -> deref l w = (inr s, w).
Proof. intros H. unfold deref. now rewrite H. Qed.

(** ** Fallback intersections *)

(** C8: in fallback mode [find_intersections] returns the empty list of
    intersections together with the very space it was given: the returned
    reference denotes [cs] (and the program state is unchanged), so the
    returned space equals [cs] on points, lines, circles and history. *)
Theorem find_intersections_fallback_empty
    (self : RustGeometryService) (l : loc) (obj1_id obj2_id : string)
    (w : World) (cs : ConstructionSpace) :
  rust_binary_path self = None ->
  heap w !! l = Some cs ->
  exists l' w',
    find_intersections self l obj1_id obj2_id w = (inr ([], l'), w')
    /\ heap w' !! l' = Some cs.
Proof.
  intros Hmode Hcs. exists l, w. split; [|exact Hcs].
  unfold find_intersections. rewrite Hmode. reflexivity.
Qed.

Lemma find_intersections_fallback_empty_witness :
  exists l' w',
    find_intersections fallback_service 1%positive "cA" "cB"
      (world_with space_four_lines) = (inr ([], l'), w')
    /\ heap w' !! l' = Some space_four_lines.
Proof.
  apply (find_intersections_fallback_empty fallback_service 1%positive
           "cA" "cB" (world_with space_four_lines) space_four_lines);
    reflexivity.
Defined.

(** ** Fallback construction of lines and circles *)

Lemma heap_alter_lookup (f : ConstructionSpace -> ConstructionSpace)
    (l : loc) (h : gmap loc ConstructionSpace) (s : ConstructionSpace) :
  h !! l = Some s -> alter f l h !! l = Some (f s).
Proof. intros H. rewrite lookup_alter_eq, H. reflexivity. Qed.

Lemma construct_line_guard_passes uuid4 self l p1 p2 label w cs :
  heap w !! l = Some cs ->
  is_Some (points cs !! p1) -> is_Some (points cs !! p2) -> p1 <> p2 ->
  construct_line uuid4 self l p1 p2 label w =
  match rust_binary_path self with
  | None =>
      (let! line_id := uuid4_str uuid4 in
       let! _ := mutate l (store_line line_id
                   {| l_id := line_id; point1_id := p1; point2_id := p2;
                      l_label := label; l_dependencies := [p1; p2] |}) in
       ret (line_id, l)) w
  | Some _ =>
      try_except
        (let! cs := deref l in
         let! result := _execute_rust_command self
                          (construct_line_cmd cs p1 p2 label) in
         let! d := item "construction_space" (r_construction_space result) in
         let! updated_space := new_space d in
         let! line_id := item "line_id" (r_line_id result) in
         ret (line_id, updated_space))
        (fun e => raise (GeometryEngineError
                           ("Failed to construct line: " +:+ str_exn e))) w
  end.
Proof.
  intros Hcs H1 H2 Hne. unfold construct_line at 1, bind at 1.
  rewrite (deref_some _ _ _ Hcs).
  apply has_key_true in H1, H2. rewrite H1, H2. simpl.
  apply String.eqb_neq in Hne. rewrite Hne.
  destruct (rust_binary_path self); reflexivity.
Qed.

Lemma construct_circle_guard_passes uuid4 self l p1 p2 label w cs :
  heap w !! l = Some cs ->
  is_Some (points cs !! p1) -> is_Some (points cs !! p2) -> p1 <> p2 ->
  construct_circle uuid4 self l p1 p2 label w =
  match rust_binary_path self with
  | None =>
      (let! circle_id := uuid4_str uuid4 in
       let! _ := mutate l (store_circle circle_id
                   {| c_id := circle_id; center_id := p1; radius_point_id := p2;
                      c_label := label; c_dependencies := [p1; p2] |}) in
       ret (circle_id, l)) w
  | Some _ =>
      try_except
        (let! cs := deref l in
         let! result := _execute_rust_command self
                          (construct_circle_cmd cs p1 p2 label) in
         let! d := item "construction_space" (r_construction_space result) in
         let! updated_space := new_space d in
         let! circle_id := item "circle_id" (r_circle_id result) in
         ret (circle_id, updated_space))
        (fun e => raise (GeometryEngineError
                           ("Failed to construct circle: " +:+ str_exn e))) w
  end.
Proof.
  intros Hcs H1 H2 Hne. unfold construct_circle at 1, bind at 1.
  rewrite (deref_some _ _ _ Hcs).
  apply has_key_true in H1, H2. rewrite H1, H2. simpl.
  apply String.eqb_neq in Hne. rewrite Hne.
  destruct (rust_binary_path self); reflexivity.
Qed.

(** C10: in fallback mode, for distinct existing points [p1] and [p2],
    [construct_line] stores one line (endpoints [p1], [p2], dependencies
    [[p1; p2]]) under the identifier it drew, in the space it was given, and
    leaves points, circles and history as they were; the number of lines
    grows by one when the identifier was not in use.  [construct_circle]
    does the same on the circles mapping. *)
Theorem fallback_construct_adds_one_object
    (uuid4 : nat -> string) (self : RustGeometryService) (l : loc)
    (p1 p2 : string) (label : option string) (w : World)
    (cs : ConstructionSpace) :
  rust_binary_path self = None ->
  heap w !! l = Some cs ->
  is_Some (points cs !! p1) -> is_Some (points cs !! p2) -> p1 <> p2 ->
  let new_id := uuid4 (drawn w) in
  (exists l' w' cs',
     construct_line uuid4 self l p1 p2 label w = (inr (new_id, l'), w')
     /\ heap w' !! l' = Some cs'
     /\ lines cs' = <[new_id := {| l_id := new_id; point1_id := p1;
                                  point2_id := p2; l_label := label;
                                  l_dependencies := [p1; p2] |}]> (lines cs)
     /\ points cs' = points cs /\ circles cs' = circles cs
     /\ history cs' = history cs
     /\ (lines cs !! new_id = None -> size (lines cs') = size (lines cs) + 1))
  /\
  (exists l' w' cs',
     construct_circle uuid4 self l p1 p2 label w = (inr (new_id, l'), w')
     /\ heap w' !! l' = Some cs'
     /\ circles cs' = <[new_id := {| c_id := new_id; center_id := p1;
                                    radius_point_id := p2; c_label := label;
                                    c_dependencies := [p1; p2] |}]> (circles cs)
     /\ points cs' = points cs /\ lines cs' = lines cs
     /\ history cs' = history cs
     /\ (circles cs !! new_id = None
         -> size (circles cs') = size (circles cs) + 1)).
Proof.
  intros Hmode Hcs H1 H2 Hne new_id. split.
  - rewrite (construct_line_guard_passes _ _ _ _ _ _ _ _ Hcs H1 H2 Hne), Hmode.
    eexists l, _, _. split; [reflexivity|]. simpl.
    split; [apply heap_alter_lookup, Hcs|]. simpl.
    repeat split; try reflexivity.
    intros Hfresh. rewrite (map_size_insert_None _ _ _ Hfresh). lia.
  - rewrite (construct_circle_guard_passes _ _ _ _ _ _ _ _ Hcs H1 H2 Hne), Hmode.
    eexists l, _, _. split; [reflexivity|]. simpl.
    split; [apply heap_alter_lookup, Hcs|]. simpl.
    repeat split; try reflexivity.
    intros Hfresh. rewrite (map_size_insert_None _ _ _ Hfresh). lia.
Qed.

Lemma fallback_construct_adds_one_object_witness :
  exists l' w' cs',
    construct_line sample_uuid4 fallback_service 1%positive "A" "B" None
      (world_with space_AB) = (inr (sample_uuid4 0, l'), w')
    /\ heap w' !! l' = Some cs'
    /\ points cs' = points space_AB
    /\ size (lines cs') = 1.
Proof.
  destruct (fallback_construct_adds_one_object sample_uuid4 fallback_service
              1%positive "A" "B" None (world_with space_AB) space_AB)
    as [(l' & w' & cs' & Hrun & Hheap & _ & Hpoints & _ & _ & Hsize) _].
  - reflexivity.
  - reflexivity.
  - eexists; reflexivity.
  - eexists; reflexivity.
  - discriminate.
  - exists l', w', cs'. repeat split; try assumption.
    rewrite Hsize; reflexivity.
Defined.

(** ** Pattern predicates *)

Lemma triangle_pattern_as_bool cs :
  pattern_identified "equilateral_triangle" (_analyze_construction cs)
  = ((size (lines cs) =? 3)%nat && (2 <=? size (circles cs))%nat
     && (3 <=? size (points cs))%nat).
Proof.
  unfold pattern_identified, _analyze_construction. cbn [identified_patterns].
  generalize (size (lines cs)) (size (circles cs)) (size (points cs)).
  intros n m k.
  destruct (n =? 3)%nat, (2 <=? m)%nat, (3 <=? k)%nat, (2 <=? n)%nat,
    (1 <=? m)%nat, (1 <=? n)%nat; reflexivity.
Qed.

(** C9, as the code has it: the triangle pattern of the construction
    analysis is a predicate on the counts alone, and it holds exactly when
    the space has exactly 3 lines, at least 2 circles and at least 3
    points; the unlock check of the [equilateral_triangle] element holds
    exactly when the space has at least 3 lines and at least 2 circles. *)
Theorem triangle_pattern_counts (cs : ConstructionSpace) :
  (pattern_identified "equilateral_triangle" (_analyze_construction cs) = true
   <-> size (lines cs) = 3 /\ 2 <= size (circles cs) /\ 3 <= size (points cs))
  /\ (_can_unlock_element equilateral_triangle cs = true
      <-> 3 <= size (lines cs) /\ 2 <= size (circles cs)).
Proof.
  split.
  - rewrite triangle_pattern_as_bool, !andb_true_iff, Nat.eqb_eq, !Nat.leb_le.
    tauto.
  - unfold _can_unlock_element.
    cbn [unlock_requirements e_id equilateral_triangle].
    change (String.eqb "equilateral_triangle" "line_segment") with false.
    change (String.eqb "equilateral_triangle" "circle") with false.
    change (String.eqb "equilateral_triangle" "equilateral_triangle") with true.
    cbv iota. rewrite andb_true_iff, !Nat.leb_le. tauto.
Qed.

(** C9 fails as stated: with four lines, two circles and three points the
    analysis does not report the triangle pattern. *)
Lemma triangle_pattern_four_lines :
  3 <= size (lines space_four_lines)
  /\ 2 <= size (circles space_four_lines)
  /\ 3 <= size (points space_four_lines)
  /\ pattern_identified "equilateral_triangle"
       (_analyze_construction space_four_lines) = false.
Proof.
  repeat split; vm_compute; try lia; reflexivity.
Qed.

(** ** Health check *)

(** C6, as the code has it: [health_check] never raises; it answers [True]
    in fallback mode and when the engine answers with status [healthy], and
    [False] only when a binary was found and its answer to the health
    command is missing or carries another status. *)
Theorem health_check_verdict (self : RustGeometryService) (w : World) :
  exists b w',
    health_check self w = (inr b, w')
    /\ (b = true <->
        rust_binary_path self = None
        \/ (subprocess self (length (sent w)) health_check_cmd ≫= r_status)
           = Some "healthy").
Proof.
  unfold health_check, try_except, bind, _execute_rust_command, ret.
  destruct (rust_binary_path self) as [path|].
  - destruct (subprocess self (length (sent w)) health_check_cmd)
      as [result|]; simpl.
    + eexists _, _. split; [reflexivity|].
      rewrite bool_decide_eq_true. split; [tauto|].
      intros [H|H]; [discriminate|exact H].
    + eexists _, _. split; [reflexivity|].
      split; [discriminate|]. intros [H|H]; discriminate.
  - eexists _, _. split; [reflexivity|]. tauto.
Qed.

(** C6 fails as stated: the answer in fallback mode is the answer of a
    service whose engine is available and healthy. *)
Lemma health_check_fallback_like_healthy :
  fst (health_check fallback_service (world_with empty_space)) = inr true
  /\ fst (health_check healthy_service (world_with empty_space)) = inr true.
Proof. split; reflexivity. Qed.

(** ** The fallback validator *)

Lemma validate_construction_fallback self l step w cs :
  rust_binary_path self = None ->
  heap w !! l = Some cs ->
  validate_construction self l step w = (inr (basic_validation cs step), w).
Proof.
  intros Hmode Hcs. unfold validate_construction. rewrite Hmode.
  unfold bind. rewrite (deref_some _ _ _ Hcs). reflexivity.
Qed.

Lemma validate_construction_step_fallback self l step w cs :
  rust_binary_path self = None ->
  heap w !! l = Some cs ->
  validate_construction_step l step self w =
  (inr {| is_valid := basic_validation cs (step_data_of step);
          v_step := step;
          validation_message :=
            validity_message (basic_validation cs (step_data_of step));
          suggestions :=
            if basic_validation cs (step_data_of step) then []
            else _get_validation_suggestions step cs |}, w).
Proof.
  intros Hmode Hcs. unfold validate_construction_step, try_except, bind.
  rewrite (validate_construction_fallback _ _ _ _ _ Hmode Hcs).
  rewrite (deref_some _ _ _ Hcs). reflexivity.
Qed.

(** C3 on the code: in fallback mode a [construct_line] or
    [construct_circle] step whose two dependencies are the same existing
    point is reported valid, with no suggestion. *)
Theorem fallback_validator_accepts_identical_dependencies
    (self : RustGeometryService) (l : loc) (w : World)
    (cs : ConstructionSpace) (a : string) (step : ConstructionStep) :
  rust_binary_path self = None ->
  heap w !! l = Some cs ->
  is_Some (points cs !! a) ->
  step_type step = "construct_line" \/ step_type step = "construct_circle" ->
  dependencies step = [a; a] ->
  validate_construction_step l step self w =
  (inr {| is_valid := true; v_step := step;
          validation_message := "Step is valid"; suggestions := [] |}, w).
Proof.
  intros Hmode Hcs Ha Hty Hdeps.
  rewrite (validate_construction_step_fallback _ _ _ _ _ Hmode Hcs).
  assert (basic_validation cs (step_data_of step) = true) as ->; [|reflexivity].
  unfold basic_validation, step_data_of. simpl. rewrite Hdeps. simpl.
  apply has_key_true in Ha. rewrite Ha.
  destruct Hty as [-> | ->]; reflexivity.
Qed.

Lemma fallback_validator_accepts_identical_dependencies_witness :
  validate_construction_step 1%positive (step_of "construct_circle" ["A"; "A"])
    fallback_service (world_with space_AB) =
  (inr {| is_valid := true;
          v_step := step_of "construct_circle" ["A"; "A"];
          validation_message := "Step is valid"; suggestions := [] |},
   world_with space_AB).
Proof.
  apply (fallback_validator_accepts_identical_dependencies fallback_service
           1%positive (world_with space_AB) space_AB "A").
  - reflexivity.
  - reflexivity.
  - eexists; reflexivity.
  - right; reflexivity.
  - reflexivity.
Defined.

(** C5 on the code: in fallback mode the verdict does not depend on the
    number of dependencies.  A [find_intersections] step is always reported
    valid, and a [construct_line] or [construct_circle] step is reported
    valid as soon as each of its dependencies, however many, is an existing
    point; no suggestion is returned. *)
Theorem fallback_validator_ignores_arity
    (self : RustGeometryService) (l : loc) (w : World)
    (cs : ConstructionSpace) (step : ConstructionStep) :
  rust_binary_path self = None ->
  heap w !! l = Some cs ->
  step_type step = "find_intersections"
  \/ ((step_type step = "construct_line" \/ step_type step = "construct_circle")
      /\ Forall (fun dep => is_Some (points cs !! dep)) (dependencies step)) ->
  validate_construction_step l step self w =
  (inr {| is_valid := true; v_step := step;
          validation_message := "Step is valid"; suggestions := [] |}, w).
Proof.
  intros Hmode Hcs Hstep.
  rewrite (validate_construction_step_fallback _ _ _ _ _ Hmode Hcs).
  assert (basic_validation cs (step_data_of step) = true) as ->; [|reflexivity].
  unfold basic_validation, step_data_of. simpl.
  destruct Hstep as [-> | [Hty Hdeps]]; [reflexivity|].
  assert (forallb (fun dep => has_key dep (points cs)) (dependencies step) = true)
    as ->.
  { apply forallb_forall. intros dep Hin. apply has_key_true.
    rewrite Forall_forall in Hdeps. apply Hdeps, list_elem_of_In, Hin. }
  destruct Hty as [-> | ->]; reflexivity.
Qed.

Lemma fallback_validator_ignores_arity_witness :
  validate_construction_step 1%positive (step_of "construct_line" ["A"])
    fallback_service (world_with space_AB) =
  (inr {| is_valid := true;
          v_step := step_of "construct_line" ["A"];
          validation_message := "Step is valid"; suggestions := [] |},
   world_with space_AB).
Proof.
  apply (fallback_validator_ignores_arity fallback_service 1%positive
           (world_with space_AB) space_AB).
  - reflexivity.
  - reflexivity.
  - right. split; [left; reflexivity|].
    constructor; [eexists; reflexivity|constructor].
Defined.

(** ** Errors of line and circle construction *)

Lemma fresh_loc_unused (h : gmap loc ConstructionSpace) :
  h !! fresh (dom h) = None.
Proof. apply not_elem_of_dom, is_fresh. Qed.

Lemma new_space_keeps (h : gmap loc ConstructionSpace) d l s :
  h !! l = Some s -> <[fresh (dom h) := d]> h !! l = Some s.
Proof.
  intros H. rewrite lookup_insert_ne; [exact H|].
  intros E. rewrite <- E, fresh_loc_unused in H. discriminate.
Qed.

Lemma spaces_kept_refl w : spaces_kept w w.
Proof. intros l cs H; exact H. Qed.

Ltac run_monad :=
  unfold try_except, bind, deref, _execute_rust_command, item, new_space,
    mutate, uuid4_str, ret, raise in *.

Lemma construct_line_guard_fails uuid4 self l a b label w cs :
  heap w !! l = Some cs ->
  points cs !! a = None \/ points cs !! b = None \/ a = b ->
  exists msg,
    construct_line uuid4 self l a b label w = (inl (GeometryEngineError msg), w).
Proof.
  intros Hcs Hbad. unfold construct_line, bind.
  rewrite (deref_some _ _ _ Hcs).
  destruct (has_key a (points cs)) eqn:Ha; simpl; [|eexists; reflexivity].
  destruct (has_key b (points cs)) eqn:Hb; simpl; [|eexists; reflexivity].
  destruct (String.eqb_spec a b) as [Heq|Hne]; [eexists; reflexivity|].
  apply has_key_true in Ha, Hb. destruct Ha as [? Ha], Hb as [? Hb].
  destruct Hbad as [H|[H|H]]; congruence.
Qed.

Lemma construct_circle_guard_fails uuid4 self l a b label w cs :
  heap w !! l = Some cs ->
  points cs !! a = None \/ points cs !! b = None \/ a = b ->
  exists msg,
    construct_circle uuid4 self l a b label w = (inl (GeometryEngineError msg), w).
Proof.
  intros Hcs Hbad. unfold construct_circle, bind.
  rewrite (deref_some _ _ _ Hcs).
  destruct (has_key a (points cs)) eqn:Ha; simpl; [|eexists; reflexivity].
  destruct (has_key b (points cs)) eqn:Hb; simpl; [|eexists; reflexivity].
  destruct (String.eqb_spec a b) as [Heq|Hne]; [eexists; reflexivity|].
  apply has_key_true in Ha, Hb. destruct Ha as [? Ha], Hb as [? Hb].
  destruct Hbad as [H|[H|H]]; congruence.
Qed.

Lemma construct_line_error uuid4 self l a b label w cs e w' :
  heap w !! l = Some cs ->
  construct_line uuid4 self l a b label w = (inl e, w') ->
  (exists msg, e = GeometryEngineError msg) /\ spaces_kept w w'.
Proof.
  intros Hcs. unfold construct_line, spaces_kept. run_monad.
  rewrite Hcs. simpl.
  repeat case_match; intros; simplify_eq/=; (split; [eauto|]); try tauto;
    intros; try apply new_space_keeps; auto.
Qed.

Lemma construct_circle_error uuid4 self l a b label w cs e w' :
  heap w !! l = Some cs ->
  construct_circle uuid4 self l a b label w = (inl e, w') ->
  (exists msg, e = GeometryEngineError msg) /\ spaces_kept w w'.
Proof.
  intros Hcs. unfold construct_circle, spaces_kept. run_monad.
  rewrite Hcs. simpl.
  repeat case_match; intros; simplify_eq/=; (split; [eauto|]); try tauto;
    intros; try apply new_space_keeps; auto.
Qed.

Lemma construct_line_delegated_answer uuid4 self l a b label w cs :
  heap w !! l = Some cs ->
  is_Some (rust_binary_path self) ->
  is_Some (points cs !! a) -> is_Some (points cs !! b) -> a <> b ->
  match delegated_answer self w (construct_line_cmd cs a b label) r_line_id with
  | Some (i, d) =>
      exists l' w',
        construct_line uuid4 self l a b label w = (inr (i, l'), w')
        /\ heap w' !! l' = Some d
  | None =>
      exists msg w',
        construct_line uuid4 self l a b label w
        = (inl (GeometryEngineError msg), w')
  end.
Proof.
  intros Hcs [path Hpath] Ha Hb Hne.
  rewrite (construct_line_guard_passes _ _ _ _ _ _ _ _ Hcs Ha Hb Hne), Hpath.
  unfold delegated_answer. run_monad. rewrite Hcs, Hpath. simpl.
  destruct (subprocess self (length (sent w)) (construct_line_cmd cs a b label))
    as [result|]; simpl; [|eexists _, _; reflexivity].
  destruct (r_construction_space result) as [d|]; simpl;
    [|eexists _, _; reflexivity].
  destruct (r_line_id result) as [i|]; simpl; [|eexists _, _; reflexivity].
  eexists _, _. split; [reflexivity|]. apply lookup_insert_eq.
Qed.

Lemma construct_circle_delegated_answer uuid4 self l a b label w cs :
  heap w !! l = Some cs ->
  is_Some (rust_binary_path self) ->
  is_Some (points cs !! a) -> is_Some (points cs !! b) -> a <> b ->
  match delegated_answer self w (construct_circle_cmd cs a b label)
          r_circle_id with
  | Some (i, d) =>
      exists l' w',
        construct_circle uuid4 self l a b label w = (inr (i, l'), w')
        /\ heap w' !! l' = Some d
  | None =>
      exists msg w',
        construct_circle uuid4 self l a b label w
        = (inl (GeometryEngineError msg), w')
  end.
Proof.
  intros Hcs [path Hpath] Ha Hb Hne.
  rewrite (construct_circle_guard_passes _ _ _ _ _ _ _ _ Hcs Ha Hb Hne), Hpath.
  unfold delegated_answer. run_monad. rewrite Hcs, Hpath. simpl.
  destruct (subprocess self (length (sent w)) (construct_circle_cmd cs a b label))
    as [result|]; simpl; [|eexists _, _; reflexivity].
  destruct (r_construction_space result) as [d|]; simpl;
    [|eexists _, _; reflexivity].
  destruct (r_circle_id result) as [i|]; simpl; [|eexists _, _; reflexivity].
  eexists _, _. split; [reflexivity|]. apply lookup_insert_eq.
Qed.

(** C4, as the code has it: [construct_line] and [construct_circle] raise a
    [GeometryEngineError] whenever [a] or [b] is not a point of the space or
    [a = b], and they do so before anything is sent to the engine, leaving
    the whole state as it was.  In fallback mode they raise in no other
    case.  In delegated mode, for distinct existing points, the same
    exception class is raised exactly when the engine gives no usable
    answer (the call fails, or the answer lacks the space or the
    identifier).  Whenever an error is raised, in either mode, it is a
    [GeometryEngineError] and every space is unchanged. *)
Theorem construct_signals_referential_errors
    (uuid4 : nat -> string) (self : RustGeometryService) (l : loc)
    (a b : string) (label : option string) (w : World)
    (cs : ConstructionSpace) :
  heap w !! l = Some cs ->
  referential_guard (construct_line uuid4 self l a b label) self cs a b w
    (delegated_answer self w (construct_line_cmd cs a b label) r_line_id)
  /\ referential_guard (construct_circle uuid4 self l a b label) self cs a b w
       (delegated_answer self w (construct_circle_cmd cs a b label) r_circle_id).
Proof.
  intros Hcs. split; (split; [|split; [|split]]).
  - eapply construct_line_guard_fails, Hcs.
  - intros Hmode Ha Hb Hne.
    rewrite (construct_line_guard_passes _ _ _ _ _ _ _ _ Hcs Ha Hb Hne), Hmode.
    eexists _, _. reflexivity.
  - apply construct_line_delegated_answer, Hcs.
  - intros e w'. eapply construct_line_error, Hcs.
  - eapply construct_circle_guard_fails, Hcs.
  - intros Hmode Ha Hb Hne.
    rewrite (construct_circle_guard_passes _ _ _ _ _ _ _ _ Hcs Ha Hb Hne), Hmode.
    eexists _, _. reflexivity.
  - apply construct_circle_delegated_answer, Hcs.
  - intros e w'. eapply construct_circle_error, Hcs.
Qed.

Lemma construct_signals_referential_errors_witness :
  referential_guard
    (construct_line sample_uuid4 failing_service 1%positive "A" "Z" None)
    failing_service space_AB "A" "Z" (world_with space_AB) None
  /\ referential_guard
       (construct_circle sample_uuid4 failing_service 1%positive "A" "Z" None)
       failing_service space_AB "A" "Z" (world_with space_AB) None.
Proof.
  apply (construct_signals_referential_errors sample_uuid4 failing_service
           1%positive "A" "Z" None (world_with space_AB) space_AB).
  reflexivity.
Defined.

(** C4 fails as stated: with a binary that is found but does not answer,
    [construct_line] on two distinct existing points raises a
    [GeometryEngineError] all the same. *)
Lemma construct_line_engine_failure :
  is_Some (points space_AB !! "A") /\ is_Some (points space_AB !! "B")
  /\ "A" <> "B"
  /\ exists msg w',
       construct_line sample_uuid4 failing_service 1%positive "A" "B" None
         (world_with space_AB) = (inl (GeometryEngineError msg), w').
Proof.
  split; [eexists; reflexivity|]. split; [eexists; reflexivity|].
  split; [discriminate|]. eexists _, _. reflexivity.
Qed.

(** ** Validation of a sequence *)

Lemma validate_construction_on_snapshot self c sd w cs r w' :
  heap w !! c = Some cs ->
  validate_construction self c sd w = (r, w') ->
  heap w' = heap w /\ drawn w' = drawn w
  /\ (forall b, r = inr b -> snapshot_verdict self cs (length (sent w)) sd = Some b)
  /\ (forall e, r = inl e -> is_Some (rust_binary_path self))
  /\ (forall n sd', snapshot_verdict self cs (length (sent w') + n) sd'
                    = snapshot_verdict self cs (length (sent w) + S n) sd').
Proof.
  intros Hcs. unfold validate_construction, snapshot_verdict. run_monad.
  destruct (rust_binary_path self) as [path|]; rewrite Hcs; simpl.
  - destruct (subprocess self (length (sent w)) (validate_construction_cmd cs sd))
      as [result|]; simpl.
    + destruct (r_is_valid result) as [b|]; intros; simplify_eq/=;
        repeat split; try congruence; eauto;
        intros; rewrite length_app; simpl; do 2 f_equal; lia.
    + intros; simplify_eq/=; repeat split; try congruence; eauto;
        intros; rewrite length_app; simpl; do 2 f_equal; lia.
  - intros; simplify_eq/=. repeat split; congruence.
Qed.

Lemma validate_loop_spec self c cs :
  forall todo i acc w,
    heap w !! c = Some cs ->
    match validate_loop self c i todo acc w with
    | (inr rs, w') =>
        exists new,
          rs = acc ++ new /\ heap w' = heap w /\ drawn w' = drawn w
          /\ vr_step <$> new = take (length new) todo
          /\ vr_step_number <$> new = seq (i + 1) (length new)
          /\ (forall j res, new !! j = Some res ->
                snapshot_verdict self cs (length (sent w) + j)
                  (step_data_of (vr_step res)) = Some (vr_is_valid res))
          /\ (forall j res, new !! j = Some res -> vr_is_valid res = false ->
                length new = S j)
          /\ (length new = length todo
              \/ exists res, last new = Some res /\ vr_is_valid res = false)
    | (inl e, w') => is_Some (rust_binary_path self)
    end.
Proof.
  induction todo as [|step todo IH]; intros i acc w Hcs; simpl.
  - exists []. rewrite app_nil_r. repeat split; auto.
    all: intros j res Hj; rewrite lookup_nil in Hj; discriminate.
  - unfold bind at 1.
    destruct (validate_construction self c (step_data_of step) w) as [r w1] eqn:Hv.
    destruct (validate_construction_on_snapshot _ _ _ _ _ _ _ Hcs Hv)
      as (Hheap & Hdrawn & Hok & Herr & Hshift).
    destruct r as [e|b]; [eauto|].
    specialize (Hok b eq_refl).
    assert (heap w1 !! c = Some cs) as Hcs1 by (rewrite Hheap; exact Hcs).
    unfold bind. rewrite (deref_some _ _ _ Hcs1).
    destruct b.
    + specialize (IH (S i)
        (acc ++ [{| vr_step_number := i + 1; vr_step := step;
                    vr_is_valid := true;
                    vr_validation_message := validity_message true;
                    vr_suggestions := None |}]) w1 Hcs1).
      destruct (validate_loop self c (S i) todo _ w1) as [[e|rs] w'];
        [exact IH|].
      destruct IH as (new & -> & Hh & Hd & Hsteps & Hnums & Hverd & Hstop & Hlast).
      eexists (_ :: new). rewrite <- app_assoc. split; [reflexivity|].
      split; [congruence|]. split; [congruence|].
      rewrite !fmap_cons. cbn [length take seq vr_step vr_step_number].
      rewrite Hsteps, Hnums.
      split; [reflexivity|]. split; [do 2 f_equal; lia|].
      split; [|split].
      * intros [|j] res Hj; simpl in Hj.
        -- injection Hj as <-. simpl. rewrite Nat.add_0_r. exact Hok.
        -- rewrite <- Hshift. apply Hverd, Hj.
      * intros [|j] res Hj Hinv; simpl in Hj.
        -- injection Hj as <-. discriminate.
        -- f_equal. eapply Hstop; eauto.
      * destruct Hlast as [Hlen|(res & Hres & Hinv)]; [left; congruence|].
        right. exists res. split; [|exact Hinv].
        destruct new; [discriminate|exact Hres].
    + eexists [_]. split; [reflexivity|]. simpl.
      split; [congruence|]. split; [congruence|].
      split; [reflexivity|]. split; [reflexivity|].
      split; [|split].
      * intros [|j] res Hj; simpl in Hj; [|rewrite lookup_nil in Hj; discriminate].
        injection Hj as <-. simpl. rewrite Nat.add_0_r. exact Hok.
      * intros [|j] res Hj _; simpl in Hj; [reflexivity|].
        rewrite lookup_nil in Hj; discriminate.
      * right. eexists. split; reflexivity.
Qed.

Lemma basic_validation_rule cs step :
  basic_validation cs
    {| sd_step_type := step_type step;
       sd_dependencies := dependencies step;
       sd_metadata := metadata step |} = true
  <-> fallback_rule cs step.
Proof.
  unfold basic_validation, fallback_rule. cbn [sd_step_type sd_dependencies].
  destruct (String.eqb_spec (step_type step) "add_point") as [Ha|Ha].
  { split; [|reflexivity]. rewrite Ha. intros _ [?|?]; discriminate. }
  destruct (String.eqb_spec (step_type step) "construct_line") as [Hl|Hl];
    destruct (String.eqb_spec (step_type step) "construct_circle") as [Hc|Hc];
    cbn [orb]; rewrite ?forallb_forall;
    try (split; [intros _ [?|?]; contradiction|reflexivity]).
  all: split;
    [ intros Hall _ dep Hin; apply has_key_true, Hall, list_elem_of_In, Hin
    | intros Hall dep Hin; apply has_key_true, Hall;
      [tauto|apply list_elem_of_In, Hin] ].
Qed.

Lemma validate_construction_raises self c sd w cs e w' :
  heap w !! c = Some cs ->
  validate_construction self c sd w = (inl e, w') ->
  snapshot_verdict self cs (length (sent w)) sd = None
  /\ exists cause,
       e = GeometryEngineError ("Failed to validate construction: " +:+ cause).
Proof.
  intros Hcs. unfold validate_construction, snapshot_verdict.
  unfold try_except, bind, deref, _execute_rust_command, item, raise, ret.
  destruct (rust_binary_path self) as [path|]; rewrite Hcs; simpl.
  - destruct (subprocess self (length (sent w)) (validate_construction_cmd cs sd))
      as [result|]; simpl.
    + destruct (r_is_valid result) as [b|]; intros; simplify_eq/=; eauto.
    + intros; simplify_eq/=; eauto.
  - intros; simplify_eq/=.
Qed.

Lemma validate_loop_raises self c cs :
  forall todo i acc w e w',
    heap w !! c = Some cs ->
    validate_loop self c i todo acc w = (inl e, w') ->
    heap w' = heap w /\ drawn w' = drawn w
    /\ (exists cause,
          e = GeometryEngineError ("Failed to validate construction: " +:+ cause))
    /\ exists j step,
         todo !! j = Some step
         /\ snapshot_verdict self cs (length (sent w) + j)
              {| sd_step_type := step_type step;
                 sd_dependencies := dependencies step;
                 sd_metadata := metadata step |} = None
         /\ forall k earlier, (k < j)%nat -> todo !! k = Some earlier ->
              snapshot_verdict self cs (length (sent w) + k)
                {| sd_step_type := step_type earlier;
                   sd_dependencies := dependencies earlier;
                   sd_metadata := metadata earlier |} = Some true.
Proof.
  induction todo as [|step todo IH]; intros i acc w e w' Hcs; simpl.
  - discriminate.
  - unfold bind at 1.
    destruct (validate_construction self c (step_data_of step) w) as [r w1] eqn:Hv.
    destruct (validate_construction_on_snapshot _ _ _ _ _ _ _ Hcs Hv)
      as (Hheap & Hdrawn & Hok & _ & Hshift).
    destruct r as [e0|b].
    + intros [= <- <-].
      destruct (validate_construction_raises _ _ _ _ _ _ _ Hcs Hv) as [Hnone Hmsg].
      repeat split; [exact Hheap|exact Hdrawn|exact Hmsg|].
      exists 0%nat, step. rewrite Nat.add_0_r.
      split; [reflexivity|]. split; [exact Hnone|]. intros k ? Hk. lia.
    + specialize (Hok b eq_refl).
      assert (heap w1 !! c = Some cs) as Hcs1 by (rewrite Hheap; exact Hcs).
      unfold bind. rewrite (deref_some _ _ _ Hcs1).
      destruct b; [|discriminate].
      intros Hrest.
      destruct (IH _ _ _ _ _ Hcs1 Hrest)
        as (Hh & Hd & Hmsg & j & later & Hj & Hnone & Hbefore).
      split; [congruence|]. split; [congruence|]. split; [exact Hmsg|].
      exists (S j), later. split; [exact Hj|].
      split; [rewrite <- Hshift; exact Hnone|].
      intros [|k] earlier Hk Hlook; simpl in Hlook.
      * injection Hlook as <-. rewrite Nat.add_0_r. exact Hok.
      * rewrite <- Hshift. apply Hbefore; [lia|exact Hlook].
Qed.

(** C7: [validate_construction_sequence] runs the validator on the steps in
    order, each time on the type, the dependencies and the metadata of the
    step and against the snapshot it was given at the start (no step is
    applied, no space changes, no identifier is drawn); in fallback mode a
    recorded step is valid exactly when the fallback rule holds of it on
    that snapshot; the first invalid step is the last one recorded; the
    overall verdict is the conjunction of the recorded verdicts.  In
    fallback mode it always answers; in delegated mode the request fails,
    with status 422, at the first step for which the validation call
    raises. *)
Theorem validate_sequence_against_initial_snapshot
    (sequence : ConstructionSequence) (l : loc) (self : RustGeometryService)
    (w : World) (cs : ConstructionSpace) :
  heap w !! l = Some cs ->
  validation_report sequence self cs w
    (validate_construction_sequence sequence l self w).
Proof.
  intros Hcs. unfold validate_construction_sequence, try_except, bind at 1.
  rewrite (deref_some _ _ _ Hcs). unfold bind at 1. unfold new_space at 1.
  set (c := fresh (dom (heap w))).
  set (w1 := {| heap := <[c := cs]> (heap w); drawn := drawn w; sent := sent w |}).
  assert (heap w1 !! c = Some cs) as Hc by apply lookup_insert_eq.
  pose proof (validate_loop_spec self c cs (steps sequence) 0 [] w1 Hc) as Hloop.
  pose proof (validate_loop_raises self c cs (steps sequence) 0 [] w1) as Hfail.
  unfold bind.
  destruct (validate_loop self c 0 (steps sequence) [] w1) as [[e|rs] w'].
  - destruct (Hfail e w' Hc eq_refl) as (Hh & Hd & [cause ->] & Hstep).
    cbn [validation_report raise str_exn].
    split; [exact Hloop|]. split; [exists cause; reflexivity|].
    split; [intros l0 s0 H0; rewrite Hh; apply new_space_keeps, H0|].
    split; [exact Hd|exact Hstep].
  - destruct Hloop as (new & -> & Hh & Hd & Hsteps & Hnums & Hverd & Hstop & Hlast).
    cbn [validation_report ret validation_results overall_valid app].
    split; [exact Hsteps|]. split; [exact Hnums|]. split; [exact Hverd|].
    split.
    { intros Hmode res Hin. apply list_elem_of_lookup in Hin as [j Hj].
      specialize (Hverd j res Hj). unfold snapshot_verdict in Hverd.
      rewrite Hmode in Hverd. injection Hverd as Hverd.
      rewrite <- Hverd. apply basic_validation_rule. }
    split; [intros l0 s0 H0; rewrite Hh; apply new_space_keeps, H0|].
    split; [exact Hd|]. split; [exact Hstop|]. split; [exact Hlast|reflexivity].
Qed.

Lemma validate_sequence_against_initial_snapshot_witness :
  validation_report
    (sequence_of [step_of "add_point" []; step_of "construct_line" ["A"; "Z"];
                  step_of "add_point" []])
    fallback_service space_AB (world_with space_AB)
    (inr {| sv_sequence :=
              sequence_of [step_of "add_point" [];
                           step_of "construct_line" ["A"; "Z"];
                           step_of "add_point" []];
            overall_valid := false;
            validation_results :=
              [{| vr_step_number := 1;
                  vr_step := step_of "add_point" [];
                  vr_is_valid := true;
                  vr_validation_message := "Step is valid";
                  vr_suggestions := None |};
               {| vr_step_number := 2;
                  vr_step := step_of "construct_line" ["A"; "Z"];
                  vr_is_valid := false;
                  vr_validation_message := "Step is invalid";
                  vr_suggestions :=
                    Some ["Required object 'Z' does not exist in construction space"] |}];
            sv_summary :=
              {| vs_total_steps := 3; valid_steps := 1; invalid_steps := 1 |} |},
     {| heap := <[2%positive := space_AB]> {[1%positive := space_AB]};
        drawn := 0; sent := [] |})
  /\ validation_report
       (sequence_of [step_of "add_point" []; step_of "construct_line" ["A"; "Z"];
                     step_of "add_point" []])
       faltering_service space_AB (world_with space_AB)
       (inl (HTTPException 422
               ("Sequence validation failed: Geometry engine error: "
                +:+ "Failed to validate construction: 'is_valid'")),
        {| heap := <[2%positive := space_AB]> {[1%positive := space_AB]};
           drawn := 0;
           sent := [validate_construction_cmd space_AB
                      {| sd_step_type := "add_point"; sd_dependencies := [];
                         sd_metadata := no_metadata |};
                    validate_construction_cmd space_AB
                      {| sd_step_type := "construct_line";
                         sd_dependencies := ["A"; "Z"];
                         sd_metadata := no_metadata |}] |}).
Proof.
  split.
  - exact (validate_sequence_against_initial_snapshot _ 1%positive
             fallback_service (world_with space_AB) space_AB eq_refl).
  - exact (validate_sequence_against_initial_snapshot _ 1%positive
             faltering_service (world_with space_AB) space_AB eq_refl).
Defined.

(** ** Which space an operation works on *)

Ltac new_space_goals :=
  repeat split; intros; simplify_eq/=;
    try (apply new_space_keeps; assumption);
    try apply fresh_loc_unused; auto using spaces_kept_refl.

Lemma add_point_delegated uuid4 self l x y label w :
  is_Some (rust_binary_path self) ->
  returns_new_space (add_point uuid4 self l x y label) w.
Proof.
  intros [path Hpath] r w'. unfold add_point, spaces_kept. rewrite Hpath.
  run_monad. rewrite Hpath.
  repeat case_match; intros; simplify_eq/=; new_space_goals.
Qed.

Lemma find_intersections_delegated self l a b w :
  is_Some (rust_binary_path self) ->
  returns_new_space (find_intersections self l a b) w.
Proof.
  intros [path Hpath] r w'. unfold find_intersections, spaces_kept. rewrite Hpath.
  run_monad. rewrite Hpath.
  repeat case_match; intros; simplify_eq/=; new_space_goals.
Qed.

Lemma construct_line_delegated uuid4 self l a b label w :
  is_Some (rust_binary_path self) ->
  returns_new_space (construct_line uuid4 self l a b label) w.
Proof.
  intros [path Hpath] r w'. unfold construct_line, spaces_kept.
  run_monad. rewrite Hpath.
  repeat case_match; intros; simplify_eq/=; new_space_goals.
Qed.

Lemma construct_circle_delegated uuid4 self l a b label w :
  is_Some (rust_binary_path self) ->
  returns_new_space (construct_circle uuid4 self l a b label) w.
Proof.
  intros [path Hpath] r w'. unfold construct_circle, spaces_kept.
  run_monad. rewrite Hpath.
  repeat case_match; intros; simplify_eq/=; new_space_goals.
Qed.

Lemma heap_alter_other (f : ConstructionSpace -> ConstructionSpace)
    (c l0 : loc) (h : gmap loc ConstructionSpace) s0 :
  l0 <> c -> h !! l0 = Some s0 -> alter f c h !! l0 = Some s0.
Proof. intros Hne H. rewrite lookup_alter_ne; [exact H|congruence]. Qed.

Lemma execute_step_frame uuid4 step c self w r w' :
  _execute_construction_step uuid4 step c self w = (r, w') ->
  (forall l0 s0, l0 <> c -> heap w !! l0 = Some s0 -> heap w' !! l0 = Some s0)
  /\ (forall out, r = inr out ->
        updated_space out = c \/ heap w !! updated_space out = None).
Proof.
  unfold _execute_construction_step, add_point, construct_line,
    construct_circle, find_intersections.
  run_monad.
  repeat case_match; intros; simplify_eq/=; split; intros; simplify_eq/=;
    try (apply heap_alter_other; assumption);
    try (apply new_space_keeps; assumption);
    try (right; apply fresh_loc_unused);
    auto.
Qed.

Lemma execute_loop_frame uuid4 self w0 :
  forall todo c i acc w,
    spaces_kept w0 w ->
    heap w0 !! c = None ->
    exists c' rs w',
      execute_loop uuid4 self c i todo acc w = (inr (c', rs), w')
      /\ spaces_kept w0 w' /\ heap w0 !! c' = None.
Proof.
  induction todo as [|step todo IH]; intros c i acc w Hkept Hc; simpl.
  - eexists _, _, _. split; [reflexivity|]. split; assumption.
  - destruct (_execute_construction_step uuid4 step c self w) as [r w1] eqn:Hstep.
    destruct (execute_step_frame _ _ _ _ _ _ _ Hstep) as [Hothers Hret].
    assert (spaces_kept w0 w1) as Hkept1.
    { intros l0 s0 H0. apply Hothers; [|apply Hkept, H0]. congruence. }
    destruct r as [e|out].
    + eexists _, _, _. split; [reflexivity|]. split; assumption.
    + apply IH; [exact Hkept1|].
      destruct (Hret out eq_refl) as [-> | Hnew]; [exact Hc|].
      destruct (heap w0 !! updated_space out) as [s0|] eqn:H0; [|reflexivity].
      apply Hkept in H0. congruence.
Qed.

Lemma execute_sequence_frame uuid4 sequence l self w cs :
  heap w !! l = Some cs ->
  exists r w',
    execute_construction_sequence uuid4 sequence l self w = (inr r, w')
    /\ spaces_kept w w' /\ heap w !! final_construction_space r = None.
Proof.
  intros Hcs. unfold execute_construction_sequence, try_except, bind at 1.
  rewrite (deref_some _ _ _ Hcs). unfold bind at 1, new_space at 1.
  set (c := fresh (dom (heap w))).
  set (w1 := {| heap := <[c := cs]> (heap w); drawn := drawn w; sent := sent w |}).
  destruct (execute_loop_frame uuid4 self w (steps sequence) c 0 [] w1)
    as (c' & rs & w' & Hrun & Hkept & Hnew).
  - intros l0 s0 H0. apply new_space_keeps, H0.
  - apply fresh_loc_unused.
  - unfold bind. rewrite Hrun. eexists _, _. split; [reflexivity|].
    split; assumption.
Qed.

Lemma add_point_fallback uuid4 self l x y label w cs :
  rust_binary_path self = None ->
  heap w !! l = Some cs ->
  exists w',
    add_point uuid4 self l x y label w = (inr (uuid4 (drawn w), l), w')
    /\ heap w' = <[l := store_point (uuid4 (drawn w))
                         {| p_id := uuid4 (drawn w); p_x := x; p_y := y;
                            p_label := label; is_constructed := false;
                            p_dependencies := [] |} cs]> (heap w)
    /\ drawn w' = S (drawn w) /\ sent w' = sent w.
Proof.
  intros Hmode Hcs. unfold add_point. rewrite Hmode. run_monad. simpl.
  eexists. split; [reflexivity|]. simpl. repeat split.
  apply map_eq. intros l0. rewrite lookup_alter, lookup_insert.
  destruct (decide (l = l0)) as [<-|]; [rewrite Hcs|]; reflexivity.
Qed.

(** C2, as the code has it: [execute_construction_sequence] works on a deep
    copy, so the caller's space (like every space that existed before the
    call) is unchanged and the final space is a new object.  In delegated
    mode add point, construct line, construct circle and find intersections
    leave the caller's space unchanged and answer with a new object.  In
    fallback mode find intersections answers with the caller's object,
    untouched, while add point, construct line and construct circle store
    the new object in the caller's space itself and answer with that same
    object. *)
Theorem operations_and_the_callers_space
    (uuid4 : nat -> string) (self : RustGeometryService) (l : loc)
    (cs : ConstructionSpace) (w : World) :
  heap w !! l = Some cs ->
  space_passing uuid4 self l cs w.
Proof.
  intros Hcs. split; [|split].
  - intros sequence. eapply execute_sequence_frame, Hcs.
  - intros Hpath. split; [|split; [|split]].
    + intros x y label. apply add_point_delegated, Hpath.
    + intros a b label. apply construct_line_delegated, Hpath.
    + intros a b label. apply construct_circle_delegated, Hpath.
    + intros a b. apply find_intersections_delegated, Hpath.
  - intros Hmode new_id. split; [|split; [|split]].
    + intros a b. unfold find_intersections. rewrite Hmode. reflexivity.
    + intros x y label.
      destruct (add_point_fallback uuid4 self l x y label w cs Hmode Hcs)
        as (w' & Hrun & Hheap & _).
      exists w'. split; [exact Hrun|]. rewrite Hheap. apply lookup_insert_eq.
    + intros a b label Ha Hb Hne.
      rewrite (construct_line_guard_passes _ _ _ _ _ _ _ _ Hcs Ha Hb Hne), Hmode.
      eexists. split; [reflexivity|]. apply heap_alter_lookup, Hcs.
    + intros a b label Ha Hb Hne.
      rewrite (construct_circle_guard_passes _ _ _ _ _ _ _ _ Hcs Ha Hb Hne), Hmode.
      eexists. split; [reflexivity|]. apply heap_alter_lookup, Hcs.
Qed.

Lemma operations_and_the_callers_space_witness :
  space_passing sample_uuid4 fallback_service 1%positive space_AB
    (world_with space_AB).
Proof.
  apply (operations_and_the_callers_space sample_uuid4 fallback_service
           1%positive space_AB (world_with space_AB)).
  reflexivity.
Defined.

(** C2 fails as stated: in fallback mode [add_point] answers with the
    reference it was given, and the caller's space, empty before the call,
    holds the new point after it. *)
Lemma add_point_fallback_changes_argument :
  heap (world_with empty_space) !! 1%positive = Some empty_space
  /\ exists w',
       add_point sample_uuid4 fallback_service 1%positive 0%float 0%float None
         (world_with empty_space) = (inr (sample_uuid4 0, 1%positive), w')
       /\ heap w' !! 1%positive <> Some empty_space.
Proof.
  split; [reflexivity|].
  destruct (add_point_fallback sample_uuid4 fallback_service 1%positive
              0%float 0%float None (world_with empty_space) empty_space
              eq_refl eq_refl) as (w' & Hrun & Hheap & _).
  exists w'. split; [exact Hrun|].
  rewrite Hheap, lookup_insert_eq. intros H.
  apply (f_equal (fun o => o ≫= fun s => points s !! sample_uuid4 0)) in H.
  simpl in H. rewrite lookup_insert_eq in H. discriminate.
Qed.

(** ** Execution of a sequence in fallback mode *)


Lemma count_cons {A} (p : A -> bool) x rs :
  count p (x :: rs) = (if p x then 1 else 0) + count p rs.
Proof.
  unfold count. rewrite filter_cons.
  destruct (p x); case_decide; simpl; congruence.
Qed.







Section FreshIdentifiers.

Variable uuid4 : nat -> string.
Hypothesis uuid4_inj : forall n m, uuid4 n = uuid4 m -> n = m.








End FreshIdentifiers.





(** * Further properties *)

(** ** Halting of the sequence executor *)

Lemma count_le_length {A} (p : A -> bool) rs : count p rs <= length rs.
Proof.
  induction rs as [|x rs IH]; [reflexivity|].
  rewrite count_cons. simpl. destruct (p x); lia.
Qed.

Lemma count_stops_at_first_false {A} (p : A -> bool) rs :
  (forall j x, rs !! j = Some x -> p x = false -> length rs = S j) ->
  length rs - count p rs <= 1.
Proof.
  induction rs as [|x rs IH]; intros Hlast; [simpl; lia|].
  rewrite count_cons. destruct (p x) eqn:Hx.
  - simpl. apply IH. intros j y Hj Hy.
    specialize (Hlast (S j) y Hj Hy). simpl in Hlast. lia.
  - specialize (Hlast 0 x eq_refl Hx). simpl in Hlast.
    pose proof (count_le_length p rs). simpl. lia.
Qed.

Lemma execute_loop_halts uuid4 self :
  forall todo c i acc w,
  exists c' new w',
    execute_loop uuid4 self c i todo acc w = (inr (c', acc ++ new), w')
    /\ er_step <$> new = take (length new) todo
    /\ er_step_number <$> new = seq (i + 1) (length new)
    /\ Forall well_shaped new
    /\ (forall j res, new !! j = Some res -> success res = false ->
          length new = S j)
    /\ (length new = length todo
        \/ exists res, last new = Some res /\ success res = false).
Proof.
  induction todo as [|step todo IH]; intros c i acc w.
  - exists c, [], w. rewrite app_nil_r. split_and!; try reflexivity.
    + constructor.
    + intros j res Hj. rewrite lookup_nil in Hj. discriminate.
    + left; reflexivity.
  - cbn [execute_loop].
    destruct (_execute_construction_step uuid4 step c self w) as [[e|out] w1].
    + eexists c, [_], w1. split_and!; try reflexivity.
      * constructor; [|constructor]. split; [reflexivity|eauto].
      * intros [|j] res Hj _; [reflexivity|].
        simpl in Hj. rewrite lookup_nil in Hj. discriminate.
      * right. eexists. split; reflexivity.
    + set (res := {| er_step_number := i + 1; er_step := step; success := true;
                     result := Some out; error := None;
                     message := "Step " +:+ pretty (i + 1)
                                +:+ " executed successfully" |}).
      destruct (IH (updated_space out) (S i) (acc ++ [res]) w1)
        as (c' & new & w' & Hrun & Hsteps & Hnums & Hshape & Hstop & Hlast).
      exists c', (res :: new), w'. split_and!.
      * rewrite Hrun, <- app_assoc. reflexivity.
      * rewrite fmap_cons. cbn [length take]. rewrite Hsteps. reflexivity.
      * rewrite fmap_cons. cbn [length seq]. rewrite Hnums.
        reflexivity.
      * constructor; [|exact Hshape]. split; [eauto|reflexivity].
      * intros [|j] y Hj Hy; simpl in Hj.
        -- injection Hj as <-. discriminate.
        -- cbn [length]. f_equal. eapply Hstop; eassumption.
      * destruct Hlast as [Hlen|(y & Hy & Hfail)].
        -- left. cbn [length]. congruence.
        -- right. exists y. split; [|exact Hfail].
           destruct new; [discriminate|exact Hy].
Qed.

(** X1: whatever the mode, [execute_construction_sequence] answers (its
    500 handler is never reached).  The results are those of the first
    steps, in order and numbered from 1; a failed step is the last one
    recorded, so at most one step fails and no later step is attempted;
    the counts of the summary add up, and overall success means that no
    step failed and every step of the sequence was run. *)
Theorem execute_sequence_halts_on_first_failure
    (uuid4 : nat -> string) (sequence : ConstructionSequence) (l : loc)
    (self : RustGeometryService) (w : World) :
  halting_report sequence
    (execute_construction_sequence uuid4 sequence l self w).
Proof.
  unfold execute_construction_sequence, try_except, bind at 1.
  unfold deref at 1. unfold bind at 1, new_space at 1.
  set (c := fresh (dom (heap w))).
  set (w1 := {| heap := _; drawn := drawn w; sent := sent w |}).
  destruct (execute_loop_halts uuid4 self (steps sequence) c 0 [] w1)
    as (c' & new & w' & Hrun & Hsteps & Hnums & Hshape & Hstop & Hlast).
  unfold bind. rewrite Hrun.
  cbn [halting_report ret app execution_results se_summary es_total_steps
       successful_steps failed_steps overall_success].
  pose proof (count_le_length success new) as Hle.
  pose proof (count_stops_at_first_false success new Hstop) as Hone.
  assert (length new <= length (steps sequence)) as Hlen.
  { rewrite <- (length_fmap er_step), Hsteps, length_take. lia. }
  split_and!; try assumption; try reflexivity; try lia.
  rewrite bool_decide_eq_true. lia.
Qed.

(** ** What a step does to the state, and how it fails *)

Lemma heap_alter_is_Some (f : ConstructionSpace -> ConstructionSpace)
    (c : loc) (h : gmap loc ConstructionSpace) :
  is_Some (h !! c) -> is_Some (alter f c h !! c).
Proof. intros [s Hs]. rewrite lookup_alter_eq, Hs. simpl. eauto. Qed.

Lemma new_space_allocated (h : gmap loc ConstructionSpace) d :
  is_Some (<[fresh (dom h) := d]> h !! fresh (dom h)).
Proof. rewrite lookup_insert_eq. eauto. Qed.

Lemma execute_step_effects uuid4 step c self w r w' :
  _execute_construction_step uuid4 step c self w = (r, w') ->
  (forall e, r = inl e ->
     spaces_kept w w'
     /\ (rust_binary_path self = None -> heap w' = heap w))
  /\ (forall out, r = inr out -> is_Some (heap w !! c) ->
        is_Some (heap w' !! updated_space out))
  /\ (sent w' = sent w \/ exists cmd, sent w' = sent w ++ [cmd])
  /\ (rust_binary_path self = None -> sent w' = sent w).
Proof.
  unfold _execute_construction_step, add_point, construct_line,
    construct_circle, find_intersections, spaces_kept.
  run_monad.
  repeat case_match; intros; simplify_eq/=; split_and!; intros;
    simplify_eq/=; try split_and!; intros; simplify_eq/=;
    try reflexivity; try (apply new_space_keeps; assumption);
    try assumption; try (destruct w; reflexivity);
    try (apply heap_alter_is_Some; assumption);
    try apply new_space_allocated;
    try (left; reflexivity); try (right; eexists; reflexivity).
Qed.

Lemma execute_step_malformed uuid4 step c self w :
  malformed_step step ->
  exists msg,
    _execute_construction_step uuid4 step c self w
    = (inl (ConstructionValidationError msg), w).
Proof.
  unfold malformed_step, known_step_type, _execute_construction_step.
  intros Hbad.
  destruct (String.eqb_spec (step_type step) "add_point") as [Hty|Hadd];
    [exfalso; destruct Hbad as [H|[H _]]; tauto|].
  assert (length (dependencies step) <> 2
          \/ (step_type step <> "construct_line"
              /\ step_type step <> "construct_circle"
              /\ step_type step <> "find_intersections")) as Hcase.
  { destruct Hbad as [H|[_ H]]; [right|left; exact H]. tauto. }
  destruct (String.eqb_spec (step_type step) "construct_line") as [Hl|Hl];
    [destruct Hcase as [H|H]; [|tauto];
     destruct (dependencies step) as [|d0 [|d1 [|]]];
     try (eexists; reflexivity); simpl in H; lia|].
  destruct (String.eqb_spec (step_type step) "construct_circle") as [Hc|Hc];
    [destruct Hcase as [H|H]; [|tauto];
     destruct (dependencies step) as [|d0 [|d1 [|]]];
     try (eexists; reflexivity); simpl in H; lia|].
  destruct (String.eqb_spec (step_type step) "find_intersections") as [Hi|Hi];
    [destruct Hcase as [H|H]; [|tauto];
     destruct (dependencies step) as [|d0 [|d1 [|]]];
     try (eexists; reflexivity); simpl in H; lia|].
  eexists; reflexivity.
Qed.

Lemma execute_step_wellformed_error uuid4 step c self w msg w' :
  ~ malformed_step step ->
  _execute_construction_step uuid4 step c self w
  <> (inl (ConstructionValidationError msg), w').
Proof.
  unfold malformed_step, known_step_type, not. intros Hok.
  unfold _execute_construction_step, add_point, construct_line,
    construct_circle, find_intersections.
  destruct (String.eqb_spec (step_type step) "add_point") as [Hty|Hadd].
  { run_monad. repeat case_match; intros; simplify_eq/=. }
  destruct (String.eqb_spec (step_type step) "construct_line") as [Hl|Hl].
  { destruct (dependencies step) as [|d0 [|d1 [|]]];
      try (exfalso; apply Hok; right; split; [exact Hadd|simpl; lia]).
    run_monad. repeat case_match; intros; simplify_eq/=. }
  destruct (String.eqb_spec (step_type step) "construct_circle") as [Hc|Hc].
  { destruct (dependencies step) as [|d0 [|d1 [|]]];
      try (exfalso; apply Hok; right; split; [exact Hadd|simpl; lia]).
    run_monad. repeat case_match; intros; simplify_eq/=. }
  destruct (String.eqb_spec (step_type step) "find_intersections") as [Hi|Hi].
  { destruct (dependencies step) as [|d0 [|d1 [|]]];
      try (exfalso; apply Hok; right; split; [exact Hadd|simpl; lia]).
    run_monad. repeat case_match; intros; simplify_eq/=. }
  exfalso. apply Hok. left. tauto.
Qed.

(** X3: a step that fails changes no space: every space object, the
    current one included, is there as it was; in fallback mode no space
    object is created either and nothing is sent to the engine. *)
Theorem failed_step_changes_no_space
    (uuid4 : nat -> string) (step : ConstructionStep) (c : loc)
    (self : RustGeometryService) (w : World) (e : exn) (w' : World) :
  _execute_construction_step uuid4 step c self w = (inl e, w') ->
  spaces_kept w w'
  /\ (rust_binary_path self = None -> heap w' = heap w /\ sent w' = sent w).
Proof.
  intros Hstep.
  destruct (execute_step_effects _ _ _ _ _ _ _ Hstep) as (Hfail & _ & _ & Hsent).
  destruct (Hfail e eq_refl) as [Hkept Hheap].
  split; [exact Hkept|]. intros Hmode. split; [exact (Hheap Hmode)|exact (Hsent Hmode)].
Qed.

Lemma failed_step_changes_no_space_witness :
  _execute_construction_step sample_uuid4 (step_of "construct_line" ["A"; "Z"])
    1%positive fallback_service (world_with space_AB)
  = (inl (GeometryEngineError "Point not found: Z"), world_with space_AB)
  /\ spaces_kept (world_with space_AB) (world_with space_AB)
  /\ (rust_binary_path fallback_service = None ->
      heap (world_with space_AB) = heap (world_with space_AB)
      /\ sent (world_with space_AB) = sent (world_with space_AB)).
Proof.
  split; [reflexivity|].
  apply (failed_step_changes_no_space sample_uuid4
           (step_of "construct_line" ["A"; "Z"]) 1%positive fallback_service
           (world_with space_AB) (GeometryEngineError "Point not found: Z")
           (world_with space_AB)).
  reflexivity.
Defined.

(** X4: the executor itself refuses a step, with a
    [ConstructionValidationError], exactly when its type is not one of the
    four it knows or it is not an [add_point] step and does not have
    exactly two dependencies; it does so before anything is touched: the
    state is as it was. *)
Theorem executor_refuses_malformed_steps
    (uuid4 : nat -> string) (step : ConstructionStep) (c : loc)
    (self : RustGeometryService) (w : World) :
  (malformed_step step ->
   exists msg,
     _execute_construction_step uuid4 step c self w
     = (inl (ConstructionValidationError msg), w))
  /\ (forall msg w',
        _execute_construction_step uuid4 step c self w
        = (inl (ConstructionValidationError msg), w') ->
        malformed_step step /\ w' = w).
Proof.
  split; [apply execute_step_malformed|].
  intros msg w' Hrun.
  assert (Decision (malformed_step step)) as [Hbad|Hok]
    by (unfold malformed_step, known_step_type; apply _).
  - split; [exact Hbad|].
    destruct (execute_step_malformed uuid4 step c self w Hbad) as [msg0 Hrun0].
    congruence.
  - destruct (execute_step_wellformed_error _ _ _ _ _ _ _ Hok Hrun).
Qed.

(** ** The space returned after a halt *)



Lemma execute_sequence_unfold uuid4 sequence l self w :
  execute_construction_sequence uuid4 sequence l self w =
  match execute_loop uuid4 self (fresh (dom (heap w))) 0 (steps sequence) []
          {| heap := <[fresh (dom (heap w)) :=
                         default empty_space (heap w !! l)]> (heap w);
             drawn := drawn w; sent := sent w |} with
  | (inr (current_space, execution_results), w') =>
      (inr {| se_sequence := sequence;
              final_construction_space := current_space;
              execution_results := execution_results;
              se_summary :=
                {| es_total_steps := length (steps sequence);
                   successful_steps := count success execution_results;
                   failed_steps := length execution_results
                                   - count success execution_results;
                   overall_success :=
                     bool_decide (count success execution_results
                                  = length (steps sequence)) |} |}, w')
  | (inl e, w') =>
      (inl (HTTPException 500 ("Sequence execution failed: " +:+ str_exn e)), w')
  end.
Proof.
  unfold execute_construction_sequence, try_except, bind, deref, new_space, ret,
    raise.
  destruct (execute_loop _ _ _ _ _ _ _) as [[e|[c' rs]] w']; reflexivity.
Qed.


(** ** Requests sent to the engine *)

Lemma validate_construction_traffic self c sd w cs r w' :
  heap w !! c = Some cs ->
  validate_construction self c sd w = (r, w') ->
  sent w' = sent w ++ match rust_binary_path self with
                      | Some _ => [validate_construction_cmd cs sd]
                      | None => []
                      end.
Proof.
  intros Hcs. unfold validate_construction. run_monad.
  destruct (rust_binary_path self); rewrite Hcs; simpl;
    repeat case_match; intros; simplify_eq/=; rewrite ?app_nil_r; reflexivity.
Qed.

Lemma validate_loop_traffic self c cs :
  forall todo i acc w rs w',
    heap w !! c = Some cs ->
    validate_loop self c i todo acc w = (inr rs, w') ->
    exists new,
      rs = acc ++ new
      /\ sent w' = sent w ++ validation_requests self cs new.
Proof.
  unfold validation_requests.
  induction todo as [|step todo IH]; intros i acc w rs w' Hcs; simpl.
  - intros [= <- <-]. exists []. rewrite app_nil_r.
    destruct (rust_binary_path self); rewrite ?app_nil_r; auto.
  - unfold bind at 1.
    destruct (validate_construction self c (step_data_of step) w)
      as [[e|b] w1] eqn:Hv; [discriminate|].
    pose proof (validate_construction_traffic _ _ _ _ _ _ _ Hcs Hv) as Hsent.
    destruct (validate_construction_on_snapshot _ _ _ _ _ _ _ Hcs Hv)
      as (Hheap & _).
    assert (heap w1 !! c = Some cs) as Hcs1 by (rewrite Hheap; exact Hcs).
    unfold bind. rewrite (deref_some _ _ _ Hcs1).
    destruct b.
    + intros Hrun. destruct (IH _ _ _ _ _ Hcs1 Hrun) as (new & -> & Hs).
      eexists (_ :: new). rewrite <- app_assoc. split; [reflexivity|].
      rewrite Hs, Hsent.
      destruct (rust_binary_path self); rewrite <- ?app_assoc; reflexivity.
    + intros [= <- <-]. eexists [_]. split; [reflexivity|].
      rewrite Hsent. destruct (rust_binary_path self); reflexivity.
Qed.

(** X6: when [validate_construction_sequence] answers, it has sent, in
    delegated mode, exactly one validation request per recorded result, in
    order, each carrying the initial snapshot and the type, the
    dependencies and the metadata of that result's step; in fallback mode
    it has sent nothing. *)
Theorem validate_sequence_requests
    (sequence : ConstructionSequence) (l : loc) (self : RustGeometryService)
    (w : World) (cs : ConstructionSpace) (r : SequenceValidation) (w' : World) :
  heap w !! l = Some cs ->
  validate_construction_sequence sequence l self w = (inr r, w') ->
  sent w' = sent w ++ validation_requests self cs (validation_results r).
Proof.
  intros Hcs. unfold validate_construction_sequence, try_except, bind at 1.
  rewrite (deref_some _ _ _ Hcs). unfold bind at 1, new_space at 1.
  set (c := fresh (dom (heap w))).
  set (w1 := {| heap := <[c := cs]> (heap w); drawn := drawn w; sent := sent w |}).
  assert (heap w1 !! c = Some cs) as Hc by apply lookup_insert_eq.
  unfold bind.
  destruct (validate_loop self c 0 (steps sequence) [] w1) as [[e|rs] w2] eqn:Hrun;
    [discriminate|].
  intros [= <- <-].
  destruct (validate_loop_traffic _ _ _ _ _ _ _ _ _ Hc Hrun) as (new & -> & Hs).
  exact Hs.
Qed.

Lemma validate_sequence_requests_witness :
  exists r w',
    validate_construction_sequence
      (sequence_of [step_of "add_point" []; step_of "construct_line" ["A"; "A"]])
      1%positive approving_service (world_with space_AB) = (inr r, w')
    /\ sent w' =
       [validate_construction_cmd space_AB
          {| sd_step_type := "add_point"; sd_dependencies := [];
             sd_metadata := no_metadata |};
        validate_construction_cmd space_AB
          {| sd_step_type := "construct_line"; sd_dependencies := ["A"; "A"];
             sd_metadata := no_metadata |}].
Proof.
  destruct (validate_construction_sequence
              (sequence_of [step_of "add_point" [];
                            step_of "construct_line" ["A"; "A"]])
              1%positive approving_service (world_with space_AB))
    as [[e|r] w'] eqn:Hrun; [vm_compute in Hrun; discriminate|].
  exists r, w'. split; [reflexivity|].
  pose proof (validate_sequence_requests _ 1%positive approving_service
                (world_with space_AB) space_AB r w' eq_refl Hrun) as Hsent.
  vm_compute in Hrun. injection Hrun as <- <-. exact Hsent.
Defined.

Lemma execute_loop_traffic uuid4 self :
  forall todo c i acc w,
  exists c' new w',
    execute_loop uuid4 self c i todo acc w = (inr (c', acc ++ new), w')
    /\ length (sent w') <= length (sent w) + length new
    /\ (exists more, sent w' = sent w ++ more)
    /\ (rust_binary_path self = None -> sent w' = sent w).
Proof.
  induction todo as [|step todo IH]; intros c i acc w.
  - exists c, [], w. rewrite app_nil_r. split_and!; auto; [simpl; lia|].
    exists []. rewrite app_nil_r. reflexivity.
  - cbn [execute_loop].
    destruct (_execute_construction_step uuid4 step c self w)
      as [[e|out] w1] eqn:Hstep;
      destruct (execute_step_effects _ _ _ _ _ _ _ Hstep)
        as (_ & _ & Hsent & Hnone).
    + eexists c, [_], w1. split; [reflexivity|]. split_and!; [| |exact Hnone].
      * destruct Hsent as [->|[cmd ->]]; rewrite ?length_app; simpl; lia.
      * destruct Hsent as [->|[cmd ->]]; [exists []; rewrite app_nil_r|eexists];
          reflexivity.
    + destruct (IH (updated_space out) (S i)
                  (acc ++ [{| er_step_number := i + 1; er_step := step;
                              success := true; result := Some out;
                              error := None;
                              message := "Step " +:+ pretty (i + 1)
                                         +:+ " executed successfully" |}]) w1)
        as (c' & new & w' & Hrun & Hlen & [more Hmore] & Hfb).
      eexists c', (_ :: new), w'. rewrite Hrun, <- app_assoc.
      split; [reflexivity|]. split_and!.
      * destruct Hsent as [Hs|[cmd Hs]]; rewrite Hs in Hlen;
          rewrite ?length_app in Hlen; simpl in *; lia.
      * destruct Hsent as [Hs|[cmd Hs]]; rewrite Hmore, Hs;
          [|rewrite <- app_assoc]; eexists; reflexivity.
      * intros Hmode. rewrite (Hfb Hmode). exact (Hnone Hmode).
Qed.

(** X5: [execute_construction_sequence] only adds to the requests sent to
    the engine, at most one per recorded step, and none at all in fallback
    mode. *)
Theorem execute_sequence_requests
    (uuid4 : nat -> string) (sequence : ConstructionSequence) (l : loc)
    (self : RustGeometryService) (w : World) :
  exists r w' more,
    execute_construction_sequence uuid4 sequence l self w = (inr r, w')
    /\ sent w' = sent w ++ more
    /\ length more <= length (execution_results r)
    /\ (rust_binary_path self = None -> more = []).
Proof.
  rewrite execute_sequence_unfold.
  set (c := fresh (dom (heap w))).
  set (w1 := {| heap := _; drawn := drawn w; sent := sent w |}).
  destruct (execute_loop_traffic uuid4 self (steps sequence) c 0 [] w1)
    as (c' & new & w' & Hrun & Hlen & [more Hmore] & Hfb).
  rewrite Hrun. cbn [app]. eexists _, w', more.
  split; [reflexivity|]. cbn [execution_results]. split; [exact Hmore|].
  split.
  - rewrite Hmore, length_app in Hlen. lia.
  - intros Hmode. specialize (Hfb Hmode). rewrite Hmore in Hfb.
    apply (f_equal length) in Hfb. rewrite length_app in Hfb.
    destruct more; [reflexivity|simpl in Hfb; lia].
Qed.

(** ** Suggestions *)

Lemma has_key_false_iff {V} (k : string) (d : gmap string V) :
  has_key k d = false <-> d !! k = None.
Proof.
  unfold has_key. rewrite bool_decide_eq_false, eq_None_not_Some. tauto.
Qed.

Lemma missing_suggestions_nil cs deps :
  flat_map
    (fun dep_id =>
       if negb (has_key dep_id (points cs)) && negb (has_key dep_id (lines cs))
          && negb (has_key dep_id (circles cs))
       then ["Required object '" +:+ dep_id
             +:+ "' does not exist in construction space"]
       else []) deps = []
  <-> Forall (resolves cs) deps.
Proof.
  induction deps as [|dep deps IH]; simpl.
  - split; [constructor|reflexivity].
  - rewrite Forall_cons, <- IH. unfold resolves.
    rewrite <- !has_key_true.
    destruct (has_key dep (points cs)), (has_key dep (lines cs)),
      (has_key dep (circles cs)); simpl;
      (split; [intros H|intros [H1 H2]]); try discriminate; auto;
      destruct H1 as [?|[?|?]]; discriminate.
Qed.

(** X9: [_get_validation_suggestions] has nothing to suggest exactly when
    every dependency names a point, a line or a circle of the space and,
    for a [construct_line] or [construct_circle] step, the dependencies are
    two distinct identifiers.  (Other step types have no arity rule.) *)
Theorem no_suggestion_iff (step : ConstructionStep) (cs : ConstructionSpace) :
  _get_validation_suggestions step cs = []
  <-> Forall (resolves cs) (dependencies step)
      /\ (step_type step = "construct_line"
          \/ step_type step = "construct_circle" ->
          exists a b, dependencies step = [a; b] /\ a <> b).
Proof.
  unfold _get_validation_suggestions. cbv zeta.
  rewrite app_nil, missing_suggestions_nil.
  apply and_iff_compat_l.
  destruct (String.eqb_spec (step_type step) "construct_line") as [Hl|Hl].
  { destruct (dependencies step) as [|a [|b [|]]];
      try (split; [discriminate|intros H; destruct H as (?&?&?&?); [auto|discriminate]]).
    destruct (String.eqb_spec a b) as [->|Hne].
    - split; [discriminate|]. intros H. destruct H as (?&?&[= <- <-]&?); auto.
      contradiction.
    - split; [|reflexivity]. intros _ _. eauto. }
  destruct (String.eqb_spec (step_type step) "construct_circle") as [Hc|Hc].
  { destruct (dependencies step) as [|a [|b [|]]];
      try (split; [discriminate|intros H; destruct H as (?&?&?&?); [auto|discriminate]]).
    destruct (String.eqb_spec a b) as [->|Hne].
    - split; [discriminate|]. intros H. destruct H as (?&?&[= <- <-]&?); auto.
      contradiction.
    - split; [|reflexivity]. intros _ _. eauto. }
  split; [|reflexivity]. intros _ [?|?]; contradiction.
Qed.

Lemma missing_suggestion_listed cs deps dep :
  dep ∈ deps ->
  points cs !! dep = None -> lines cs !! dep = None ->
  circles cs !! dep = None ->
  missing_object_message dep ∈
  flat_map
    (fun dep_id =>
       if negb (has_key dep_id (points cs)) && negb (has_key dep_id (lines cs))
          && negb (has_key dep_id (circles cs))
       then ["Required object '" +:+ dep_id
             +:+ "' does not exist in construction space"]
       else []) deps.
Proof.
  intros Hin Hp Hl Hc. apply list_elem_of_In, in_flat_map.
  exists dep. split; [apply list_elem_of_In, Hin|].
  apply has_key_false_iff in Hp, Hl, Hc. rewrite Hp, Hl, Hc. simpl. auto.
Qed.

Lemma forallb_false_elem {A} (f : A -> bool) (l : list A) :
  forallb f l = false -> exists x, x ∈ l /\ f x = false.
Proof.
  induction l as [|x l IH]; simpl; [discriminate|].
  destruct (f x) eqn:Hx; simpl.
  - intros H. destruct (IH H) as (y & Hy & Hfy). exists y.
    split; [right; exact Hy|exact Hfy].
  - intros _. exists x. split; [left|exact Hx].
Qed.

Lemma basic_validation_false cs step :
  basic_validation cs (step_data_of step) = false ->
  (step_type step = "construct_line" \/ step_type step = "construct_circle")
  /\ exists dep, dep ∈ dependencies step /\ points cs !! dep = None.
Proof.
  unfold basic_validation, step_data_of. cbn [sd_step_type sd_dependencies].
  destruct (String.eqb_spec (step_type step) "add_point"); [discriminate|].
  destruct (String.eqb_spec (step_type step) "construct_line") as [Hl|Hl];
    destruct (String.eqb_spec (step_type step) "construct_circle") as [Hc|Hc];
    cbn [orb]; try discriminate; intros Hall; (split; [tauto|]);
    destruct (forallb_false_elem _ _ Hall) as (dep & Hin & Hkey);
    apply has_key_false_iff in Hkey; eauto.
Qed.

(** X10: in fallback mode a step is reported invalid only if it is a
    [construct_line] or [construct_circle] step with a dependency that is
    not a point; when that dependency is not a line or a circle either, the
    suggestions name it. *)
Theorem fallback_invalid_step_names_missing_point
    (self : RustGeometryService) (l : loc) (w : World) (cs : ConstructionSpace)
    (step : ConstructionStep) (v : StepValidation) (w' : World) :
  rust_binary_path self = None ->
  heap w !! l = Some cs ->
  validate_construction_step l step self w = (inr v, w') ->
  is_valid v = false ->
  (step_type step = "construct_line" \/ step_type step = "construct_circle")
  /\ exists dep,
       dep ∈ dependencies step /\ points cs !! dep = None
       /\ (lines cs !! dep = None -> circles cs !! dep = None ->
           missing_object_message dep ∈ suggestions v).
Proof.
  intros Hmode Hcs.
  rewrite (validate_construction_step_fallback _ _ _ _ _ Hmode Hcs).
  intros [= <- <-]. cbn [is_valid suggestions]. intros Hinv.
  destruct (basic_validation_false _ _ Hinv) as (Hty & dep & Hin & Hp).
  split; [exact Hty|]. exists dep. split; [exact Hin|]. split; [exact Hp|].
  intros Hl Hc. rewrite Hinv. unfold _get_validation_suggestions. cbv zeta.
  apply elem_of_app. left. apply missing_suggestion_listed; assumption.
Qed.

Lemma fallback_invalid_step_names_missing_point_witness :
  (step_type (step_of "construct_line" ["A"; "Z"]) = "construct_line"
   \/ step_type (step_of "construct_line" ["A"; "Z"]) = "construct_circle")
  /\ exists dep,
       dep ∈ dependencies (step_of "construct_line" ["A"; "Z"])
       /\ points space_AB !! dep = None
       /\ (lines space_AB !! dep = None -> circles space_AB !! dep = None ->
           missing_object_message dep ∈
           suggestions
             {| is_valid := false;
                v_step := step_of "construct_line" ["A"; "Z"];
                validation_message := "Step is invalid";
                suggestions := [missing_object_message "Z"] |}).
Proof.
  apply (fallback_invalid_step_names_missing_point fallback_service 1%positive
           (world_with space_AB) space_AB (step_of "construct_line" ["A"; "Z"])
           _ (world_with space_AB)); reflexivity.
Defined.

(** X11: in fallback mode a [construct_line] or [construct_circle] step
    with two distinct dependencies that both name an object, one of them a
    line or a circle rather than a point, is reported invalid with an empty
    list of suggestions. *)
Theorem fallback_invalid_without_suggestion
    (self : RustGeometryService) (l : loc) (w : World) (cs : ConstructionSpace)
    (step : ConstructionStep) (a b : string) :
  rust_binary_path self = None ->
  heap w !! l = Some cs ->
  step_type step = "construct_line" \/ step_type step = "construct_circle" ->
  dependencies step = [a; b] -> a <> b ->
  resolves cs a -> resolves cs b ->
  points cs !! a = None \/ points cs !! b = None ->
  validate_construction_step l step self w =
  (inr {| is_valid := false; v_step := step;
          validation_message := "Step is invalid"; suggestions := [] |}, w).
Proof.
  intros Hmode Hcs Hty Hdeps Hne Ha Hb Hnot.
  rewrite (validate_construction_step_fallback _ _ _ _ _ Hmode Hcs).
  assert (basic_validation cs (step_data_of step) = false) as ->.
  { unfold basic_validation, step_data_of.
    cbn [sd_step_type sd_dependencies]. rewrite Hdeps. cbn [forallb].
    assert (has_key a (points cs) && (has_key b (points cs) && true) = false)
      as ->.
    { destruct Hnot as [H|H]; apply has_key_false_iff in H; rewrite H;
        [reflexivity|apply andb_false_r]. }
    destruct Hty as [-> | ->]; reflexivity. }
  assert (_get_validation_suggestions step cs = []) as ->; [|reflexivity].
  apply no_suggestion_iff. rewrite Hdeps. split.
  - constructor; [assumption|constructor; [assumption|constructor]].
  - intros _. eauto.
Qed.

Lemma fallback_invalid_without_suggestion_witness :
  validate_construction_step 1%positive (step_of "construct_line" ["AB"; "A"])
    fallback_service (world_with space_four_lines) =
  (inr {| is_valid := false; v_step := step_of "construct_line" ["AB"; "A"];
          validation_message := "Step is invalid"; suggestions := [] |},
   world_with space_four_lines).
Proof.
  apply (fallback_invalid_without_suggestion fallback_service 1%positive
           (world_with space_four_lines) space_four_lines
           (step_of "construct_line" ["AB"; "A"]) "AB" "A").
  - reflexivity.
  - reflexivity.
  - left; reflexivity.
  - reflexivity.
  - discriminate.
  - right; left. eexists; reflexivity.
  - left. eexists; reflexivity.
  - left. reflexivity.
Defined.

(** ** Validation answers *)

(** X8: [validate_construction_step] changes no space and draws no
    identifier.  Its answer echoes the step, carries the message of the
    verdict and no suggestion for a valid step; it fails only in delegated
    mode, and then with an HTTP 422. *)
Theorem validate_step_is_pure
    (l : loc) (step : ConstructionStep) (self : RustGeometryService)
    (w : World) :
  match validate_construction_step l step self w with
  | (inr v, w') =>
      heap w' = heap w /\ drawn w' = drawn w
      /\ v_step v = step
      /\ validation_message v = validity_message (is_valid v)
      /\ (is_valid v = true -> suggestions v = [])
  | (inl e, w') =>
      heap w' = heap w /\ drawn w' = drawn w
      /\ is_Some (rust_binary_path self)
      /\ exists detail, e = HTTPException 422 detail
  end.
Proof.
  unfold validate_construction_step, validate_construction. run_monad.
  destruct (rust_binary_path self) as [path|]; simpl.
  - destruct (subprocess self (length (sent w)) _) as [result|]; simpl;
      [destruct (r_is_valid result) as [[|]|]|]; simpl;
      split_and!; eauto; discriminate.
  - destruct (basic_validation _ _); simpl; split_and!; auto; discriminate.
Qed.

Lemma validate_loop_shapes self c :
  forall todo i acc w rs w',
    validate_loop self c i todo acc w = (inr rs, w') ->
    Forall verdict_shaped acc -> Forall verdict_shaped rs.
Proof.
  induction todo as [|step todo IH]; intros i acc w rs w'; simpl.
  - intros [= <- <-]. auto.
  - unfold bind at 1.
    destruct (validate_construction self c (step_data_of step) w)
      as [[e|b] w1]; [discriminate|].
    unfold bind, deref. destruct b.
    + intros Hrun Hacc. eapply IH; [exact Hrun|].
      apply Forall_app. split; [exact Hacc|].
      constructor; [|constructor]. split; simpl; tauto.
    + intros [= <- <-] Hacc. apply Forall_app. split; [exact Hacc|].
      constructor; [|constructor]. split; simpl; [reflexivity|].
      split; discriminate.
Qed.

Lemma count_negb {A} (p : A -> bool) rs :
  count p rs + count (fun r => negb (p r)) rs = length rs.
Proof.
  induction rs as [|x rs IH]; [reflexivity|].
  rewrite !count_cons. simpl. destruct (p x); simpl; lia.
Qed.

Lemma forallb_count {A} (p : A -> bool) rs :
  forallb p rs = true <-> count (fun r => negb (p r)) rs = 0.
Proof.
  induction rs as [|x rs IH]; [split; reflexivity|].
  rewrite count_cons. simpl. destruct (p x); simpl; [exact IH|].
  split; [discriminate|lia].
Qed.

Lemma forallb_last_false {A} (p : A -> bool) rs x :
  last rs = Some x -> p x = false -> forallb p rs = false.
Proof.
  induction rs as [|y rs IH]; [discriminate|].
  intros Hlast Hx. simpl. destruct rs as [|z rs].
  - injection Hlast as ->. rewrite Hx. reflexivity.
  - rewrite (IH Hlast Hx). apply andb_false_r.
Qed.

(** X7: the summary of [validate_construction_sequence]: valid and invalid
    steps add up to the number of recorded results, at most one step is
    invalid, the sequence is overall valid exactly when none is, and then
    every step of the sequence was validated; each result carries the
    message of its verdict, and suggestions exactly when it is invalid.
    The only error is an HTTP 422. *)
Theorem validate_sequence_summary
    (sequence : ConstructionSequence) (l : loc) (self : RustGeometryService)
    (w : World) :
  match validate_construction_sequence sequence l self w with
  | (inr r, w') =>
      let rs := validation_results r in
      vs_total_steps (sv_summary r) = length (steps sequence)
      /\ valid_steps (sv_summary r) + invalid_steps (sv_summary r) = length rs
      /\ invalid_steps (sv_summary r) <= 1
      /\ (overall_valid r = true <-> invalid_steps (sv_summary r) = 0)
      /\ (overall_valid r = true -> length rs = length (steps sequence))
      /\ Forall verdict_shaped rs
  | (inl e, w') => exists detail, e = HTTPException 422 detail
  end.
Proof.
  unfold validate_construction_sequence, try_except, bind at 1.
  unfold deref at 1. unfold bind at 1, new_space at 1.
  set (cs := default empty_space (heap w !! l)).
  set (c := fresh (dom (heap w))).
  set (w1 := {| heap := <[c := cs]> (heap w); drawn := drawn w; sent := sent w |}).
  assert (heap w1 !! c = Some cs) as Hc by apply lookup_insert_eq.
  pose proof (validate_loop_spec self c cs (steps sequence) 0 [] w1 Hc) as Hloop.
  pose proof (validate_loop_shapes self c (steps sequence) 0 [] w1) as Hshape.
  unfold bind.
  destruct (validate_loop self c 0 (steps sequence) [] w1) as [[e|rs] w'];
    [eexists; reflexivity|].
  destruct Hloop as (new & -> & _ & _ & _ & _ & _ & Hstop & Hlast).
  specialize (Hshape _ _ eq_refl (Forall_nil_2 _)).
  cbn [ret validation_results sv_summary vs_total_steps valid_steps
       invalid_steps overall_valid app] in *.
  pose proof (count_negb vr_is_valid new) as Hsum.
  pose proof (count_stops_at_first_false vr_is_valid new Hstop) as Hone.
  split_and!; try assumption; try reflexivity; try lia.
  - apply forallb_count.
  - intros Hall. destruct Hlast as [Hlen|(res & Hres & Hinv)]; [exact Hlen|].
    rewrite (forallb_last_false _ _ _ Hres Hinv) in Hall. discriminate.
Qed.

(** ** Validator and executor in fallback mode *)

Lemma basic_validation_two cs step a b :
  step_type step = "construct_line" \/ step_type step = "construct_circle" ->
  dependencies step = [a; b] ->
  basic_validation cs (step_data_of step)
  = has_key a (points cs) && has_key b (points cs).
Proof.
  intros Hty Hdeps. unfold basic_validation, step_data_of.
  cbn [sd_step_type sd_dependencies]. rewrite Hdeps. cbn [forallb].
  rewrite andb_true_r. destruct Hty as [-> | ->]; reflexivity.
Qed.

(** X12: in fallback mode, for a step that carries no metadata, that the
    executor does not refuse as malformed and whose two dependencies, for
    a line or a circle, are distinct, validate-step reports the step valid
    exactly when executing it on the same space succeeds. *)
Theorem fallback_validator_agrees_with_executor
    (uuid4 : nat -> string) (self : RustGeometryService) (l : loc) (w : World)
    (cs : ConstructionSpace) (step : ConstructionStep) :
  rust_binary_path self = None ->
  heap w !! l = Some cs ->
  metadata step = no_metadata ->
  ~ malformed_step step ->
  (step_type step = "construct_line" \/ step_type step = "construct_circle" ->
   exists a b, dependencies step = [a; b] /\ a <> b) ->
  (exists v w1,
     validate_construction_step l step self w = (inr v, w1)
     /\ is_valid v = true)
  <-> (exists out w',
         _execute_construction_step uuid4 step l self w = (inr out, w')).
Proof.
  intros Hmode Hcs _ Hok Hdistinct.
  rewrite (validate_construction_step_fallback _ _ _ _ _ Hmode Hcs).
  assert ((exists v w1,
             (inr {| is_valid := basic_validation cs (step_data_of step);
                     v_step := step;
                     validation_message :=
                       validity_message (basic_validation cs (step_data_of step));
                     suggestions :=
                       if basic_validation cs (step_data_of step) then []
                       else _get_validation_suggestions step cs |}, w)
             = (inr v, w1) /\ is_valid v = true)
          <-> basic_validation cs (step_data_of step) = true) as ->.
  { split.
    - intros (v & w1 & [= <- <-] & Hv). exact Hv.
    - intros Hv. eexists _, _. split; [reflexivity|exact Hv]. }
  unfold malformed_step, known_step_type in Hok.
  unfold _execute_construction_step.
  destruct (String.eqb_spec (step_type step) "add_point") as [Hty|Hadd].
  { unfold basic_validation, step_data_of. cbn [sd_step_type]. rewrite Hty.
    cbn. unfold bind.
    destruct (add_point_fallback uuid4 self l
                (default 0%float (m_x (metadata step)))
                (default 0%float (m_y (metadata step)))
                (m_label (metadata step)) w cs Hmode Hcs) as (w' & -> & _).
    split; [intros _; eexists _, _; reflexivity|reflexivity]. }
  destruct (String.eqb_spec (step_type step) "construct_line") as [Hl|Hl].
  { destruct (Hdistinct (or_introl Hl)) as (a & b & Hdeps & Hne).
    rewrite (basic_validation_two cs step a b (or_introl Hl) Hdeps), Hdeps.
    unfold bind at 1.
    destruct (has_key a (points cs)) eqn:Ha, (has_key b (points cs)) eqn:Hb;
      cbn [andb].
    1:{ apply has_key_true in Ha, Hb.
        rewrite (construct_line_guard_passes _ _ _ _ _ _ _ _ Hcs Ha Hb Hne), Hmode.
        split; [intros _; eexists _, _; reflexivity|reflexivity]. }
    all: apply has_key_false_iff in Ha || apply has_key_false_iff in Hb.
    all: edestruct (construct_line_guard_fails uuid4 self l a b
                      (m_label (metadata step)) w cs Hcs) as [msg ->]; [tauto|].
    all: split; [discriminate|intros (out & w' & H); discriminate]. }
  destruct (String.eqb_spec (step_type step) "construct_circle") as [Hc|Hc].
  { destruct (Hdistinct (or_intror Hc)) as (a & b & Hdeps & Hne).
    rewrite (basic_validation_two cs step a b (or_intror Hc) Hdeps), Hdeps.
    unfold bind at 1.
    destruct (has_key a (points cs)) eqn:Ha, (has_key b (points cs)) eqn:Hb;
      cbn [andb].
    1:{ apply has_key_true in Ha, Hb.
        rewrite (construct_circle_guard_passes _ _ _ _ _ _ _ _ Hcs Ha Hb Hne), Hmode.
        split; [intros _; eexists _, _; reflexivity|reflexivity]. }
    all: apply has_key_false_iff in Ha || apply has_key_false_iff in Hb.
    all: edestruct (construct_circle_guard_fails uuid4 self l a b
                      (m_label (metadata step)) w cs Hcs) as [msg ->]; [tauto|].
    all: split; [discriminate|intros (out & w' & H); discriminate]. }
  destruct (String.eqb_spec (step_type step) "find_intersections") as [Hi|Hi].
  { assert (basic_validation cs (step_data_of step) = true) as ->.
    { unfold basic_validation, step_data_of. cbn [sd_step_type]. rewrite Hi.
      reflexivity. }
    destruct (dependencies step) as [|d0 [|d1 [|]]];
      try (exfalso; apply Hok; right; split; [exact Hadd|simpl; lia]).
    unfold find_intersections. rewrite Hmode.
    split; [intros _; eexists _, _; reflexivity|reflexivity]. }
  exfalso. apply Hok. left. tauto.
Qed.

Lemma fallback_validator_agrees_with_executor_witness :
  exists out w',
    _execute_construction_step sample_uuid4
      (step_of "construct_line" ["A"; "B"]) 1%positive fallback_service
      (world_with space_AB) = (inr out, w').
Proof.
  apply (fallback_validator_agrees_with_executor sample_uuid4 fallback_service
           1%positive (world_with space_AB) space_AB).
  - reflexivity.
  - reflexivity.
  - reflexivity.
  - unfold malformed_step, known_step_type. simpl.
    intros [H|[_ H]]; [apply H; right; left; reflexivity|apply H; reflexivity].
  - intros _. exists "A", "B". split; [reflexivity|discriminate].
  - eexists _, _. split; [reflexivity|reflexivity].
Defined.

(** ** Creating a space *)

(** X13: [create_construction_space] never fails and returns a new
    object, leaving the existing spaces alone.  The new space is empty in
    fallback mode; in delegated mode it is the space the engine answered
    with, and the empty space when the call fails or the answer has no
    space. *)
Theorem create_construction_space_never_fails
    (self : RustGeometryService) (w : World) :
  exists l w',
    create_construction_space self w = (inr l, w')
    /\ heap w !! l = None
    /\ spaces_kept w w'
    /\ heap w' !! l =
       Some match rust_binary_path self with
            | None => empty_space
            | Some _ =>
                default empty_space
                  (subprocess self (length (sent w)) create_construction_space_cmd
                   ≫= r_construction_space)
            end.
Proof.
  unfold create_construction_space. run_monad.
  destruct (rust_binary_path self) as [path|].
  - destruct (subprocess self (length (sent w)) create_construction_space_cmd)
      as [result|]; simpl; [destruct (r_construction_space result) as [d|]|];
      simpl; eexists _, _; (split; [reflexivity|]); simpl;
      split_and!; try apply fresh_loc_unused; try apply lookup_insert_eq;
      intros l0 s0 H0; apply new_space_keeps, H0.
  - eexists _, _. split; [reflexivity|]. simpl.
    split_and!; try apply fresh_loc_unused; try apply lookup_insert_eq.
    intros l0 s0 H0. apply new_space_keeps, H0.
Qed.

(** ** Patterns of the analysis *)

Lemma identified_patterns_elem cs p :
  p ∈ identified_patterns (_analyze_construction cs) <->
  (p = "equilateral_triangle" /\ size (lines cs) = 3
   /\ 2 <= size (circles cs) /\ 3 <= size (points cs))
  \/ (p = "perpendicular_bisector" /\ 2 <= size (lines cs)
      /\ 2 <= size (circles cs))
  \/ (p = "circle" /\ 1 <= size (circles cs))
  \/ (p = "line_segment" /\ 1 <= size (lines cs)).
Proof.
  unfold _analyze_construction. cbn [identified_patterns].
  rewrite !elem_of_app.
  assert (forall (b : bool) (s : string),
            p ∈ (if b then [s] else []) <-> p = s /\ b = true) as Hif.
  { intros [|] s; [rewrite list_elem_of_singleton|rewrite elem_of_nil];
      intuition congruence. }
  rewrite !Hif, !andb_true_iff, Nat.eqb_eq, !Nat.leb_le. tauto.
Qed.

(** X15: every pattern the analysis identifies in a space can be unlocked:
    [_can_unlock_element] accepts the element of that name on the same
    space. *)
Theorem identified_patterns_are_unlockable
    (cs : ConstructionSpace) (element : CollectionElement) :
  e_id element ∈ identified_patterns (_analyze_construction cs) ->
  _can_unlock_element element cs = true.
Proof.
  rewrite identified_patterns_elem. unfold _can_unlock_element.
  destruct (unlock_requirements element); [reflexivity|].
  intros [(-> & ? & ? & ?)|[(-> & ? & ?)|[(-> & ?)|(-> & ?)]]];
    repeat match goal with
           | |- context [String.eqb ?a ?b] =>
               destruct (String.eqb_spec a b); try congruence
           end;
    rewrite ?andb_true_iff, ?Nat.leb_le, ?Nat.ltb_lt; lia.
Qed.

Lemma identified_patterns_are_unlockable_witness :
  _can_unlock_element perpendicular_bisector space_four_lines = true.
Proof.
  apply (identified_patterns_are_unlockable space_four_lines
           perpendicular_bisector).
  apply identified_patterns_elem. right; left.
  split; [reflexivity|]. split; vm_compute; lia.
Defined.

(** X16: the analysis reports the sizes of the three mappings and of the
    history; it identifies [perpendicular_bisector] exactly with at least 2
    lines and 2 circles, [circle] with at least 1 circle and [line_segment]
    with at least 1 line; a space in which the triangle is identified has
    the other three patterns too; no pattern is identified exactly when
    there is neither a line nor a circle. *)
Theorem analysis_patterns_characterised (cs : ConstructionSpace) :
  let a := _analyze_construction cs in
  point_count a = size (points cs) /\ line_count a = size (lines cs)
  /\ circle_count a = size (circles cs)
  /\ construction_steps a = length (history cs)
  /\ (pattern_identified "perpendicular_bisector" a = true
      <-> 2 <= size (lines cs) /\ 2 <= size (circles cs))
  /\ (pattern_identified "circle" a = true <-> 1 <= size (circles cs))
  /\ (pattern_identified "line_segment" a = true <-> 1 <= size (lines cs))
  /\ (pattern_identified "equilateral_triangle" a = true ->
      pattern_identified "perpendicular_bisector" a = true
      /\ pattern_identified "circle" a = true
      /\ pattern_identified "line_segment" a = true)
  /\ (identified_patterns a = [] <->
      size (lines cs) = 0 /\ size (circles cs) = 0).
Proof.
  cbv zeta. split_and!; try reflexivity.
  - unfold pattern_identified. rewrite bool_decide_eq_true,
      identified_patterns_elem. intuition (try discriminate; auto).
  - unfold pattern_identified. rewrite bool_decide_eq_true,
      identified_patterns_elem. intuition (try discriminate; auto).
  - unfold pattern_identified. rewrite bool_decide_eq_true,
      identified_patterns_elem. intuition (try discriminate; auto).
  - unfold pattern_identified. rewrite !bool_decide_eq_true,
      !identified_patterns_elem.
    intros [(_ & ? & ? & ?)|[(? & _)|[(? & _)|(? & _)]]]; try discriminate.
    split_and!; [right; left|right; right; left|right; right; right];
      (split; [reflexivity|lia]).
  - split.
    + intros Hnil.
      assert (forall p, ~ p ∈ identified_patterns (_analyze_construction cs))
        as Hnone by (intros p; rewrite Hnil; apply not_elem_of_nil).
      split.
      * destruct (size (lines cs)) eqn:E; [reflexivity|].
        exfalso. apply (Hnone "line_segment"). rewrite identified_patterns_elem, E.
        right; right; right. split; [reflexivity|lia].
      * destruct (size (circles cs)) eqn:E; [reflexivity|].
        exfalso. apply (Hnone "circle"). rewrite identified_patterns_elem, E.
        right; right; left. split; [reflexivity|lia].
    + intros [Hl Hc]. unfold _analyze_construction. cbn [identified_patterns].
      rewrite Hl, Hc. reflexivity.
Qed.

(** ** Delegated operations *)

Ltac relay_done Hkeep :=
  eexists _, _; (split; [reflexivity|]); simpl; split_and!;
  auto using fresh_loc_unused; try apply lookup_insert_eq;
  try (let l0 := fresh "l" in let s0 := fresh "s" in let H0 := fresh "H" in
       intros l0 s0 H0; first [exact H0 | apply Hkeep; exact H0]).

(** X14: in delegated mode add point, find intersections and, for distinct
    existing points, construct line and construct circle send exactly one
    request, carrying the whole current space, and draw no identifier of
    their own.  When the answer has the fields the operation reads, the
    operation returns the engine's identifier (or intersections) and a new
    object holding the engine's space; otherwise it raises a
    [GeometryEngineError].  The spaces that existed are unchanged. *)
Theorem delegated_operations_relay_the_engine
    (uuid4 : nat -> string) (self : RustGeometryService) (l : loc) (w : World)
    (cs : ConstructionSpace) :
  is_Some (rust_binary_path self) ->
  heap w !! l = Some cs ->
  (forall x y label,
     delegates (add_point uuid4 self l x y label) w (add_point_cmd cs x y label)
       (delegated_answer self w (add_point_cmd cs x y label) r_point_id))
  /\ (forall a b,
        delegates (find_intersections self l a b) w
          (find_intersections_cmd cs a b)
          (delegated_intersections self w (find_intersections_cmd cs a b)))
  /\ (forall a b label,
        is_Some (points cs !! a) -> is_Some (points cs !! b) -> a <> b ->
        delegates (construct_line uuid4 self l a b label) w
          (construct_line_cmd cs a b label)
          (delegated_answer self w (construct_line_cmd cs a b label) r_line_id)
        /\ delegates (construct_circle uuid4 self l a b label) w
             (construct_circle_cmd cs a b label)
             (delegated_answer self w (construct_circle_cmd cs a b label)
                r_circle_id)).
Proof.
  intros [path Hpath] Hcs.
  assert (forall d l0 s0, heap w !! l0 = Some s0 ->
            <[fresh (dom (heap w)) := d]> (heap w) !! l0 = Some s0) as Hkeep
    by (intros; apply new_space_keeps; assumption).
  split; [|split].
  - intros x y label. unfold delegates, delegated_answer, add_point.
    run_monad. rewrite Hpath, Hcs. simpl.
    destruct (subprocess self (length (sent w)) (add_point_cmd cs x y label))
      as [result|]; simpl;
      [destruct (r_construction_space result) as [d|]; simpl;
       [destruct (r_point_id result) as [i|]; simpl|]|];
      relay_done Hkeep.
  - intros a b. unfold delegates, delegated_intersections, find_intersections.
    run_monad. rewrite Hpath, Hcs. simpl.
    destruct (subprocess self (length (sent w)) (find_intersections_cmd cs a b))
      as [result|]; simpl;
      [destruct (r_intersections result) as [found|]; simpl;
       [destruct (r_construction_space result) as [d|]; simpl|]|];
      relay_done Hkeep.
  - intros a b label Ha Hb Hne. split.
    + unfold delegates.
      rewrite (construct_line_guard_passes _ _ _ _ _ _ _ _ Hcs Ha Hb Hne).
      unfold delegated_answer. run_monad. rewrite Hpath, Hcs. simpl.
      destruct (subprocess self (length (sent w)) (construct_line_cmd cs a b label))
        as [result|]; simpl;
        [destruct (r_construction_space result) as [d|]; simpl;
         [destruct (r_line_id result) as [i|]; simpl|]|];
        relay_done Hkeep.
    + unfold delegates.
      rewrite (construct_circle_guard_passes _ _ _ _ _ _ _ _ Hcs Ha Hb Hne).
      unfold delegated_answer. run_monad. rewrite Hpath, Hcs. simpl.
      destruct (subprocess self (length (sent w))
                  (construct_circle_cmd cs a b label))
        as [result|]; simpl;
        [destruct (r_construction_space result) as [d|]; simpl;
         [destruct (r_circle_id result) as [i|]; simpl|]|];
        relay_done Hkeep.
Qed.

Lemma delegated_operations_relay_the_engine_witness :
  delegates
    (add_point sample_uuid4 adding_service 1%positive 0%float 0%float (Some "C"))
    (world_with space_AB)
    (add_point_cmd space_AB 0%float 0%float (Some "C"))
    (delegated_answer adding_service (world_with space_AB)
       (add_point_cmd space_AB 0%float 0%float (Some "C")) r_point_id).
Proof.
  apply (delegated_operations_relay_the_engine sample_uuid4 adding_service
           1%positive (world_with space_AB) space_AB).
  - eexists; reflexivity.
  - reflexivity.
Defined.

(** ** The geometry endpoints *)

(** X17: the health endpoint always answers (its 503 handler is never
    reached) and changes no space; [success] and [engine_available] are
    the verdict of the bridge, true in fallback mode and when the engine
    answers healthy, and the message says healthy exactly when they are
    true. *)
Theorem geometry_health_check_always_answers
    (rust_service : RustGeometryService) (w : World) :
  exists r w',
    GeometryApi.geometry_health_check rust_service w = (inr r, w')
    /\ heap w' = heap w
    /\ GeometryApi.g_success r = GeometryApi.engine_available r
    /\ (GeometryApi.g_success r = true
        <-> GeometryApi.g_message r = "Geometry engine is healthy")
    /\ (GeometryApi.engine_available r = true
        <-> rust_binary_path rust_service = None
            \/ (subprocess rust_service (length (sent w)) health_check_cmd
                ≫= r_status) = Some "healthy").
Proof.
  unfold GeometryApi.geometry_health_check, health_check. run_monad.
  destruct (rust_binary_path rust_service) as [path|]; simpl.
  - destruct (subprocess rust_service (length (sent w)) health_check_cmd)
      as [result|]; simpl.
    + eexists _, _. split; [reflexivity|]. simpl. split_and!; auto.
      * destruct (bool_decide _); split; auto; discriminate.
      * rewrite bool_decide_eq_true. split; [tauto|].
        intros [H|H]; [discriminate|exact H].
    + eexists _, _. split; [reflexivity|]. simpl. split_and!; auto.
      * split; discriminate.
      * split; [discriminate|]. intros [H|H]; discriminate.
  - eexists _, _. split; [reflexivity|]. simpl. split_and!; auto; tauto.
Qed.

Lemma fallback_guard_failure_line uuid4 self l a b label w cs e w' :
  rust_binary_path self = None ->
  heap w !! l = Some cs ->
  construct_line uuid4 self l a b label w = (inl e, w') ->
  (exists msg, e = GeometryEngineError msg) /\ w' = w.
Proof.
  intros Hmode Hcs. unfold construct_line. rewrite Hmode. run_monad.
  rewrite Hcs. repeat case_match; intros; simplify_eq/=; eauto.
Qed.

Lemma fallback_guard_failure_circle uuid4 self l a b label w cs e w' :
  rust_binary_path self = None ->
  heap w !! l = Some cs ->
  construct_circle uuid4 self l a b label w = (inl e, w') ->
  (exists msg, e = GeometryEngineError msg) /\ w' = w.
Proof.
  intros Hmode Hcs. unfold construct_circle. rewrite Hmode. run_monad.
  rewrite Hcs. repeat case_match; intros; simplify_eq/=; eauto.
Qed.

Lemma find_intersections_error self l a b w e w' :
  find_intersections self l a b w = (inl e, w') ->
  (exists msg, e = GeometryEngineError msg) /\ spaces_kept w w'
  /\ is_Some (rust_binary_path self).
Proof.
  unfold find_intersections, spaces_kept. run_monad.
  repeat case_match; intros; simplify_eq/=; split_and!; eauto;
    intros; try apply new_space_keeps; auto.
Qed.

Lemma http_errors_of_engine_error {A B} what (m : M A) (k : A -> M B) w e w' :
  (forall e1 w1, m w = (inl e1, w1) -> exists msg, e1 = GeometryEngineError msg) ->
  (forall a w1 e1 w2, k a w1 <> (inl e1, w2)) ->
  GeometryApi.http_errors what (bind m k) w = (inl e, w') ->
  exists e1, m w = (inl e1, w') /\ e = HTTPException 422 (str_exn e1).
Proof.
  intros Hm Hk. unfold GeometryApi.http_errors, try_except, bind.
  destruct (m w) as [[e1|a] w1] eqn:Hrun.
  - destruct (Hm e1 w1 eq_refl) as [msg ->]. intros [= <- <-]. eauto.
  - destruct (k a w1) as [[e2|b] w2] eqn:Hka; [|discriminate].
    exfalso. exact (Hk _ _ _ _ Hka).
Qed.

(** X18: in fallback mode the operation endpoints never answer 500: the
    add point and find intersections endpoints always succeed, and the
    line and circle endpoints fail only with an HTTP 422, leaving the state
    as it was.  In either mode a failure of the find intersections
    endpoint is an HTTP 422 and changes no space. *)
Theorem fallback_geometry_endpoints_never_answer_500
    (uuid4 : nat -> string) (self : RustGeometryService) (l : loc) (w : World)
    (cs : ConstructionSpace) :
  heap w !! l = Some cs ->
  (rust_binary_path self = None ->
   (forall point_data, exists r w',
      GeometryApi.add_point uuid4 point_data l self w = (inr r, w'))
   /\ (forall line_data e w',
         GeometryApi.construct_line uuid4 line_data l self w = (inl e, w') ->
         (exists detail, e = HTTPException 422 detail) /\ w' = w)
   /\ (forall circle_data e w',
         GeometryApi.construct_circle uuid4 circle_data l self w = (inl e, w') ->
         (exists detail, e = HTTPException 422 detail) /\ w' = w)
   /\ (forall intersection_data, exists r w',
         GeometryApi.find_intersections intersection_data l self w = (inr r, w')))
  /\ (forall intersection_data e w',
        GeometryApi.find_intersections intersection_data l self w = (inl e, w') ->
        (exists detail, e = HTTPException 422 detail) /\ spaces_kept w w'
        /\ is_Some (rust_binary_path self)).
Proof.
  intros Hcs. split.
  - intros Hmode. split_and!.
    + intros pd.
      unfold GeometryApi.add_point, GeometryApi.http_errors, try_except, bind.
      destruct (add_point_fallback uuid4 self l (GeometryApi.pc_x pd)
                  (GeometryApi.pc_y pd) (GeometryApi.pc_label pd) w cs Hmode Hcs)
        as (w1 & -> & _).
      eexists _, _. reflexivity.
    + intros ld e w'.
      unfold GeometryApi.construct_line, GeometryApi.http_errors, try_except,
        bind.
      destruct (construct_line uuid4 self l (GeometryApi.lc_point1_id ld)
                  (GeometryApi.lc_point2_id ld) (GeometryApi.lc_label ld) w)
        as [[e1|[i l']] w1] eqn:Hrun; [|discriminate].
      destruct (fallback_guard_failure_line _ _ _ _ _ _ _ _ _ _ Hmode Hcs Hrun)
        as [[msg ->] ->].
      intros [= <- <-]. eauto.
    + intros cd e w'.
      unfold GeometryApi.construct_circle, GeometryApi.http_errors, try_except,
        bind.
      destruct (construct_circle uuid4 self l (GeometryApi.cc_center_id cd)
                  (GeometryApi.cc_radius_point_id cd) (GeometryApi.cc_label cd) w)
        as [[e1|[i l']] w1] eqn:Hrun; [|discriminate].
      destruct (fallback_guard_failure_circle _ _ _ _ _ _ _ _ _ _ Hmode Hcs Hrun)
        as [[msg ->] ->].
      intros [= <- <-]. eauto.
    + intros ir.
      unfold GeometryApi.find_intersections, GeometryApi.http_errors,
        try_except, bind, find_intersections.
      rewrite Hmode. eexists _, _. reflexivity.
  - intros ir e w' Hrun.
    apply http_errors_of_engine_error in Hrun as (e1 & Hrun & ->).
    + destruct (find_intersections_error _ _ _ _ _ _ _ Hrun) as (_ & ? & ?). eauto.
    + intros e1 w1 H1. apply (find_intersections_error _ _ _ _ _ _ _ H1).
    + intros [i l'] w1 e1 w2. discriminate.
Qed.

Lemma fallback_geometry_endpoints_never_answer_500_witness :
  GeometryApi.construct_line sample_uuid4
    {| GeometryApi.lc_point1_id := "A"; GeometryApi.lc_point2_id := "Z";
       GeometryApi.lc_label := None |} 1%positive fallback_service
    (world_with space_AB)
  = (inl (HTTPException 422 "Geometry engine error: Point not found: Z"),
     world_with space_AB)
  /\ (exists detail,
        HTTPException 422 "Geometry engine error: Point not found: Z"
        = HTTPException 422 detail)
  /\ world_with space_AB = world_with space_AB.
Proof.
  split; [reflexivity|].
  destruct (fallback_geometry_endpoints_never_answer_500 sample_uuid4
              fallback_service 1%positive (world_with space_AB) space_AB eq_refl)
    as [Hfallback _].
  destruct (Hfallback eq_refl) as (_ & Hline & _).
  apply (Hline {| GeometryApi.lc_point1_id := "A";
                  GeometryApi.lc_point2_id := "Z";
                  GeometryApi.lc_label := None |}).
  reflexivity.
Defined.

(** X19: the line and circle endpoints answer a missing or repeated point
    with an HTTP 422 whose detail names the fault: the first identifier
    that is not a point of the space, or, when both are points, that the
    two are identical; the state is left as it was. *)
Theorem construction_endpoints_name_the_fault
    (uuid4 : nat -> string) (self : RustGeometryService) (l : loc) (w : World)
    (cs : ConstructionSpace) (a b : string) (label : option string) :
  heap w !! l = Some cs ->
  points cs !! a = None \/ points cs !! b = None \/ a = b ->
  let culprit := if has_key a (points cs) then b else a in
  GeometryApi.construct_line uuid4
    {| GeometryApi.lc_point1_id := a; GeometryApi.lc_point2_id := b;
       GeometryApi.lc_label := label |} l self w
  = (inl (HTTPException 422
            (if has_key a (points cs) && has_key b (points cs)
             then "Geometry engine error: Cannot create line with identical points"
             else "Geometry engine error: Point not found: " +:+ culprit)), w)
  /\ GeometryApi.construct_circle uuid4
       {| GeometryApi.cc_center_id := a; GeometryApi.cc_radius_point_id := b;
          GeometryApi.cc_label := label |} l self w
     = (inl (HTTPException 422
               (if has_key a (points cs) && has_key b (points cs)
                then "Geometry engine error: Center and radius point cannot be the same"
                else "Geometry engine error: Point not found: " +:+ culprit)), w).
Proof.
  intros Hcs Hbad culprit. subst culprit.
  unfold GeometryApi.construct_line, GeometryApi.construct_circle,
    GeometryApi.http_errors, try_except, bind, construct_line, construct_circle.
  cbn [GeometryApi.lc_point1_id GeometryApi.lc_point2_id GeometryApi.lc_label
       GeometryApi.cc_center_id GeometryApi.cc_radius_point_id
       GeometryApi.cc_label].
  unfold bind. rewrite (deref_some _ _ _ Hcs).
  destruct (has_key a (points cs)) eqn:Ha; cbn [negb andb];
    [|split; reflexivity].
  destruct (has_key b (points cs)) eqn:Hb; cbn [negb andb];
    [|split; reflexivity].
  destruct (String.eqb_spec a b) as [Heq|Hne]; [split; reflexivity|].
  apply has_key_true in Ha, Hb. destruct Ha as [? Ha], Hb as [? Hb].
  destruct Hbad as [H|[H|H]]; congruence.
Qed.

Lemma construction_endpoints_name_the_fault_witness :
  GeometryApi.construct_line sample_uuid4
    {| GeometryApi.lc_point1_id := "A"; GeometryApi.lc_point2_id := "Z";
       GeometryApi.lc_label := None |} 1%positive fallback_service
    (world_with space_AB)
  = (inl (HTTPException 422 "Geometry engine error: Point not found: Z"),
     world_with space_AB)
  /\ GeometryApi.construct_circle sample_uuid4
       {| GeometryApi.cc_center_id := "A"; GeometryApi.cc_radius_point_id := "Z";
          GeometryApi.cc_label := None |} 1%positive fallback_service
       (world_with space_AB)
     = (inl (HTTPException 422 "Geometry engine error: Point not found: Z"),
        world_with space_AB).
Proof.
  apply (construction_endpoints_name_the_fault sample_uuid4 fallback_service
           1%positive (world_with space_AB) space_AB "A" "Z" None).
  - reflexivity.
  - right; left. reflexivity.
Defined.

(** ** Fallback mode and the engine binary *)

(** X20: a service is built in fallback mode exactly when the configured
    path is unset, empty or does not exist and none of the four build
    outputs exists; a configured path that exists is taken as it is, and
    any binary found is the configured one or an existing build output. *)
Theorem fallback_mode_iff_no_binary
    (rust_lib_path : option string) (path_exists : string -> bool)
    (resolve : string -> string)
    (engine : nat -> RustCommand -> option RustResult) :
  let self := new_service rust_lib_path path_exists resolve engine in
  (rust_binary_path self = None <->
   (forall p, rust_lib_path = Some p -> p = "" \/ path_exists p = false)
   /\ Forall (fun p => path_exists p = false) possible_paths)
  /\ (forall p, rust_lib_path = Some p -> p <> "" -> path_exists p = true ->
      rust_binary_path self = Some p)
  /\ (forall found, rust_binary_path self = Some found ->
      rust_lib_path = Some found
      \/ exists p, p ∈ possible_paths /\ path_exists p = true
                   /\ found = resolve p).
Proof.
  cbv zeta. unfold new_service, _find_rust_binary.
  cbn [rust_binary_path].
  assert (resolve <$> List.find path_exists possible_paths = None
          <-> Forall (fun p => path_exists p = false) possible_paths) as Hnone.
  { rewrite fmap_None. split.
    - intros Hfind. apply Forall_forall. intros p Hp.
      apply list_elem_of_In in Hp.
      exact (find_none _ _ Hfind p Hp).
    - intros Hall. destruct (List.find path_exists possible_paths) eqn:Hfind;
        [|reflexivity].
      apply find_some in Hfind as [Hin Hex]. rewrite Forall_forall in Hall.
      apply list_elem_of_In, Hall in Hin. congruence. }
  assert (forall found,
            resolve <$> List.find path_exists possible_paths = Some found ->
            exists p, p ∈ possible_paths /\ path_exists p = true
                      /\ found = resolve p) as Hsome.
  { intros found Hfound. apply fmap_Some in Hfound as (p & Hfind & ->).
    apply find_some in Hfind as [Hin Hex]. exists p.
    split; [apply list_elem_of_In, Hin|auto]. }
  destruct rust_lib_path as [configured|].
  - destruct (String.eqb_spec configured "") as [->|Hne]; cbn [negb andb].
    + rewrite Hnone. split_and!.
      * split; [intros H; split; [intros p [= <-]; auto|exact H]|tauto].
      * intros p [= <-] Hp. contradiction.
      * intros found Hfound. right. auto.
    + destruct (path_exists configured) eqn:Hex.
      * split_and!.
        -- split; [discriminate|]. intros [H _].
           destruct (H configured eq_refl); congruence.
        -- intros p [= <-] _ _. reflexivity.
        -- intros found [= <-]. left. reflexivity.
      * rewrite Hnone. split_and!.
        -- split; [intros H; split; [intros p [= <-]; auto|exact H]|tauto].
        -- intros p [= <-] _ Hp. congruence.
        -- intros found Hfound. right. auto.
  - rewrite Hnone. split_and!.
    + split; [intros H; split; [discriminate|exact H]|tauto].
    + discriminate.
    + intros found Hfound. right. auto.
Qed.

(** ** The construction templates *)

(** X21: in both construction templates the steps are numbered from 1 and
    every dependency is created by an earlier step; submitted as they are
    to [execute_construction_sequence], they halt at their first step,
    whose type [given_points] the executor does not know: one failed
    result, no successful step, and a final space equal to the initial
    one, whatever the mode. *)
Theorem templates_are_ordered_but_not_executable
    (uuid4 : nat -> string) (self : RustGeometryService) (l : loc) (w : World)
    (t : Template) :
  t ∈ fst get_construction_templates ->
  step_number <$> t_steps t = Z.of_nat <$> seq 1 (length (t_steps t))
  /\ dependencies_created [] (t_steps t) = true
  /\ exists r w' failure,
       execute_construction_sequence uuid4 (sequence_of_template t) l self w
       = (inr r, w')
       /\ execution_results r = [failure]
       /\ success failure = false
       /\ error failure
          = Some "Construction validation failed: Unknown step type: given_points"
       /\ successful_steps (se_summary r) = 0
       /\ overall_success (se_summary r) = false
       /\ heap w' !! final_construction_space r
          = Some (default empty_space (heap w !! l)).
Proof.
  intros Hin. cbn [get_construction_templates fst] in Hin.
  unfold templates in Hin.
  rewrite !elem_of_cons, elem_of_nil in Hin.
  destruct Hin as [-> | [-> | []]].
  - split; [reflexivity|]. split; [vm_compute; reflexivity|].
    rewrite execute_sequence_unfold.
    eexists _, _, _. split; [reflexivity|]. cbn.
    split_and!; try reflexivity. apply lookup_insert_eq.
  - split; [reflexivity|]. split; [vm_compute; reflexivity|].
    rewrite execute_sequence_unfold.
    eexists _, _, _. split; [reflexivity|]. cbn.
    split_and!; try reflexivity. apply lookup_insert_eq.
Qed.

Lemma templates_are_ordered_but_not_executable_witness :
  dependencies_created [] (t_steps equilateral_triangle_template) = true
  /\ exists r w',
       execute_construction_sequence sample_uuid4
         (sequence_of_template equilateral_triangle_template) 1%positive
         fallback_service (world_with space_AB) = (inr r, w')
       /\ overall_success (se_summary r) = false.
Proof.
  destruct (templates_are_ordered_but_not_executable sample_uuid4
              fallback_service 1%positive (world_with space_AB)
              equilateral_triangle_template)
    as (_ & Hdeps & r & w' & failure & Hrun & _ & _ & _ & _ & Hfail & _).
  - apply list_elem_of_here.
  - split; [exact Hdeps|]. exists r, w'. split; [exact Hrun|exact Hfail].
Defined.
